(** * file_transfer: submission, link and deletion workflows

    A shallow embedding of the client-side workflows of the file sharing
    application (React components talking to a hosted record store and
    object store), and the properties of these workflows.

    - [FileUpload.tsx]: [handleSubmit], [validateFile], [handleDrop],
      [handleFileChange]
    - [FileList.tsx]: [handleDelete], [generateShareableLink]
    - the dashboard list component: [handleDelete], [handleShareLink]
    - [Dashboard.tsx]: [fetchDashboardStats]
    - the SQL of the [files] table and its row-level policies *)

From Stdlib Require Import ZArith NArith Ascii String Lia Sorted.
From stdpp Require Import base option numbers strings list gmap pretty.

Local Open Scope Z_scope.

(** ** JavaScript strings and [String.prototype.trim] *)

(** Free text typed by the user is kept as its sequence of UTF-16 code
    units, the representation [trim] is specified on. Identifiers, paths,
    file names and fixed messages are plain strings. *)
Module Js.

Abbreviation text := (list N).

(** ECMAScript WhiteSpace and LineTerminator code points, the characters
    removed by [trim]. *)
Definition isWhiteSpace (c : N) : bool :=
  ((c =? 9) || (c =? 10) || (c =? 11) || (c =? 12) || (c =? 13)
   || (c =? 32) || (c =? 160) || (c =? 5760)
   || ((8192 <=? c) && (c <=? 8202))
   || (c =? 8232) || (c =? 8233) || (c =? 8239) || (c =? 8287)
   || (c =? 12288) || (c =? 65279))%N.

Fixpoint trimStart (s : text) : text :=
  match s with
  | [] => []
  | c :: s' => if isWhiteSpace c then trimStart s' else s
  end.

Definition trimEnd (s : text) : text := reverse (trimStart (reverse s)).

Definition trim (s : text) : text := trimEnd (trimStart s).

(** Code units of an ASCII literal. *)
Fixpoint units (s : string) : text :=
  match s with
  | EmptyString => []
  | String a s' => Ascii.N_of_ascii a :: units s'
  end.

(** Truthiness of a string value: the empty string is the only falsy one. *)
Definition truthy_text (s : text) : bool :=
  match s with [] => false | _ => true end.

Definition truthy_string (s : string) : bool :=
  match s with EmptyString => false | _ => true end.

(** [a || b] on strings. *)
Definition or_string (a b : string) : string :=
  if truthy_string a then a else b.

(** A thrown value: [instanceofError] says whether [err instanceof Error]
    holds, [message] is its [message] property. *)
Record Thrown := { instanceofError : bool; message : string }.

(** [new Error(msg)] *)
Definition Error (msg : string) : Thrown :=
  {| instanceofError := true; message := msg |}.

(** [err instanceof Error ? err.message : fallback] *)
Definition message_or (e : Thrown) (fallback : string) : string :=
  if instanceofError e then message e else fallback.

(** [s.split(sep)] for a one-character separator: never the empty list. *)
Fixpoint split (sep : ascii) (s : string) : list string :=
  match s with
  | EmptyString => [EmptyString]
  | String c s' =>
      if Ascii.eqb c sep then EmptyString :: split sep s'
      else match split sep s' with
           | [] => [String c EmptyString]
           | w :: ws => String c w :: ws
           end
  end.

(** [arr.pop()] read as a value: the last element, [undefined] when empty. *)
Definition pop (l : list string) : option string := last l.

End Js.

(** ** Data *)

(** The browser's [File] object, as far as the components read it. *)
Module File.
Record t := { name : string; size : Z; type : string }.
End File.

(** The authenticated principal returned by [supabase.auth.getUser()]. *)
Module User.
Record t := { id : string; email : option string }.
End User.

(** Values of the [type] column: [CHECK (type IN ('file_and_message',
    'message_only'))]. *)
Inductive Kind := file_and_message | message_only.

(** The object literal passed to [supabase.from('files').insert([...])] by
    [handleSubmit]: exactly the keys the source writes. Instants are
    milliseconds since the epoch. *)
Module NewFile.
Record t := {
  name : string;
  path : option string;
  recipient_email : option string;
  expiry_date : option Z;
  user_id : string;
  download_count : Z;
  message : Js.text;
  type : Kind
}.
End NewFile.

(** A row of [public.files], with the columns of the table documented in
    the readme and [view_count], which the dashboard reads.
    [download_count], [view_count], [path], [expiry_date] and [message] are
    nullable columns. *)
Module FileRow.
Record t := {
  id : string;
  name : string;
  path : option string;
  recipient_email : string;
  expiry_date : option Z;
  created_at : Z;
  user_id : string;
  download_count : option Z;
  view_count : option Z;
  message : option Js.text;
  type : Kind
}.
End FileRow.

(** [interface FileData] of the list components: a fetched row with the
    size found in storage. Only the row part is read by the handlers below. *)
Module FileData.
Record t := { row : FileRow.t; size : Z }.
Definition id (f : t) : string := FileRow.id (row f).
Definition name (f : t) : string := FileRow.name (row f).
Definition path (f : t) : option string := FileRow.path (row f).
Definition download_count (f : t) : option Z := FileRow.download_count (row f).
Definition view_count (f : t) : option Z := FileRow.view_count (row f).
End FileData.

(** ** The hosted backend *)

(** Durable state of the provider: the objects of the storage bucket by
    path, and the rows of [public.files] by primary key. *)
Record Backend := {
  objects : gmap string File.t;
  files : gmap string FileRow.t
}.

(** Requests sent to the provider (and to the clipboard), in the shape the
    components issue them. *)
Inductive Call :=
| AuthGetUser
| StorageUpload (path : string) (f : File.t)
| StorageRemove (paths : list string)
| StorageList (folder : string) (search : option string)
| StorageCreateSignedUrl (path : string) (expiresIn : Z)
| FilesInsert (r : NewFile.t)
| FilesDelete (id : string)
| FilesUpdateDownloadCount (id : string) (n : Z)
| FilesCount (gte_expiry_date : option Z)
| FilesSelectDownloadCount
| ClipboardWriteText (s : string)
| Refresh.

(** What the environment decides during one handler run. *)
Record Env := {
  (** the session principal; [None] when nobody is signed in *)
  user : option User.t;
  (** the provider answers this request with an error and changes nothing *)
  refuses : Call → option Js.Thrown;
  (** the error object of a violated table constraint, by constraint name *)
  violation : string → Js.Thrown;
  (** [Math.random().toString(36).substring(2)] *)
  random36 : string;
  (** [Date.now()] when the object name is built *)
  now_name : Z;
  (** [Date.now()] when the expiry date is computed *)
  now_expiry : Z;
  (** [uuid_generate_v4()] and [now()] of the inserted row *)
  uuid : string;
  created : Z;
  (** default of the [view_count] column, whose declaration is not part of
      the SQL at hand *)
  view_count_default : option Z;
  (** [data?.signedUrl] of a signing request the provider accepts *)
  signedUrl : string → option string;
  (** whether the listing option [search] selects an object name *)
  search_hit : string → string → bool
}.

Definition uid (env : Env) : option string := User.id <$> user env.

(** *** Storage bucket *)

(** [upload(path, file, { upsert: false })]: refused when the path is taken. *)
Definition storage_upload (env : Env) (p : string) (f : File.t) (b : Backend)
  : Js.Thrown + Backend :=
  match objects b !! p with
  | Some _ => inl (violation env "Duplicate")
  | None => inr {| objects := <[p := f]> (objects b); files := files b |}
  end.

(** [remove(paths)]: the listed objects are gone afterwards; a path without
    an object is not an error. *)
Definition storage_remove (paths : list string) (b : Backend) : Backend :=
  {| objects := foldr delete (objects b) paths; files := files b |}.

(** Name of the object stored at key [k] when [k] lies directly in [folder]. *)
Definition name_in (folder k : string) : option string :=
  if String.prefix (folder +:+ "/") k
  then Some (String.substring (String.length folder + 1)
                              (String.length k - (String.length folder + 1)) k)
  else None.

Definition listed (env : Env) (folder : string) (search : option string)
  (kf : string * File.t) : bool :=
  match name_in folder kf.1 with
  | Some n => match search with
              | Some s => search_hit env s n
              | None => true
              end
  | None => false
  end.

(** [list(folder, { limit: 1, offset: 0, search })] *)
Definition storage_list (env : Env) (folder : string) (search : option string)
  (b : Backend) : list (string * File.t) :=
  take 1 (List.filter (listed env folder search) (map_to_list (objects b))).

(** *** The [files] table *)

(** Rows the policy [using (auth.uid() = user_id)] lets the session touch. *)
Definition owned (env : Env) (r : FileRow.t) : bool :=
  bool_decide (uid env = Some (FileRow.user_id r)).

(** Rows returned to the session by [select]. *)
Definition visible (env : Env) (b : Backend) : list FileRow.t :=
  List.filter (owned env) (map_to_list (files b)).*2.

(** The filter [.gte(column, v)] on a nullable column: a comparison with
    [NULL] is not true, so rows without a value are left out. *)
Definition gte (column : option Z) (v : Z) : bool :=
  match column with
  | Some x => bool_decide (v ≤ x)
  | None => false
  end.

(** [select('*', { count: 'exact' })], optionally with
    [.gte('expiry_date', v)]: the number of rows selected. *)
Definition files_count (env : Env) (gte_expiry_date : option Z) (b : Backend) : Z :=
  Z.of_nat (length (List.filter
    (λ r, match gte_expiry_date with
          | Some v => gte (FileRow.expiry_date r) v
          | None => true
          end) (visible env b))).

(** [select('download_count')] *)
Definition files_download_counts (env : Env) (b : Backend) : list (option Z) :=
  FileRow.download_count <$> visible env b.

(** Row built from an inserted object: [id] and [created_at] take their
    defaults, and so does [view_count], which the client does not send. *)
Definition row_of (env : Env) (r : NewFile.t) (recipient : string) : FileRow.t :=
  {| FileRow.id := uuid env;
     FileRow.name := NewFile.name r;
     FileRow.path := NewFile.path r;
     FileRow.recipient_email := recipient;
     FileRow.expiry_date := NewFile.expiry_date r;
     FileRow.created_at := created env;
     FileRow.user_id := NewFile.user_id r;
     FileRow.download_count := Some (NewFile.download_count r);
     FileRow.view_count := view_count_default env;
     FileRow.message := Some (NewFile.message r);
     FileRow.type := NewFile.type r |}.

(** [files_content_check]:
    [(path IS NOT NULL) OR (message IS NOT NULL AND message != '')] *)
Definition files_content_check (r : NewFile.t) : bool :=
  bool_decide (is_Some (NewFile.path r)) || Js.truthy_text (NewFile.message r).

(** [insert([r])] under the policy [with check (auth.uid() = user_id)], the
    [NOT NULL] of [recipient_email], the content check and the primary key. *)
Definition files_insert (env : Env) (r : NewFile.t) (b : Backend)
  : Js.Thrown + Backend :=
  if negb (bool_decide (uid env = Some (NewFile.user_id r)))
  then inl (violation env "row-level security")
  else match NewFile.recipient_email r with
  | None => inl (violation env "recipient_email")
  | Some recipient =>
      if negb (files_content_check r)
      then inl (violation env "files_content_check")
      else match files b !! uuid env with
      | Some _ => inl (violation env "files_pkey")
      | None =>
          inr {| objects := objects b;
                 files := <[uuid env := row_of env r recipient]> (files b) |}
      end
  end.

(** [delete().eq('id', i)]: rows hidden by the policy are skipped silently. *)
Definition files_delete (env : Env) (i : string) (b : Backend) : Backend :=
  match files b !! i with
  | Some r => if owned env r
              then {| objects := objects b; files := delete i (files b) |}
              else b
  | None => b
  end.

Definition with_download_count (n : Z) (r : FileRow.t) : FileRow.t :=
  {| FileRow.id := FileRow.id r;
     FileRow.name := FileRow.name r;
     FileRow.path := FileRow.path r;
     FileRow.recipient_email := FileRow.recipient_email r;
     FileRow.expiry_date := FileRow.expiry_date r;
     FileRow.created_at := FileRow.created_at r;
     FileRow.user_id := FileRow.user_id r;
     FileRow.download_count := Some n;
     FileRow.view_count := FileRow.view_count r;
     FileRow.message := FileRow.message r;
     FileRow.type := FileRow.type r |}.

(** [update({ download_count: n }).eq('id', i)] *)
Definition files_update_download_count (env : Env) (i : string) (n : Z)
  (b : Backend) : Backend :=
  match files b !! i with
  | Some r => if owned env r
              then {| objects := objects b;
                      files := <[i := with_download_count n r]> (files b) |}
              else b
  | None => b
  end.

(** ** Handler runs *)

(** A running handler owns the component state [U] (what [setState]
    updates), talks to the backend and leaves a record of its requests, in
    order. An [async] handler is a computation that ends normally or
    throws. *)
Record Sys (U : Type) := {
  ui : U;
  backend : Backend;
  calls : list Call
}.
Arguments ui {U}.
Arguments backend {U}.
Arguments calls {U}.

Definition Act (U A : Type) : Type := Sys U → (Js.Thrown + A) * Sys U.

#[global] Instance act_ret {U} : MRet (Act U) := λ A a s, (inr a, s).

#[global] Instance act_bind {U} : MBind (Act U) := λ A B f m s,
  match m s with
  | (inr a, s') => f a s'
  | (inl e, s') => (inl e, s')
  end.

(** [throw e] *)
Definition throw {U A} (e : Js.Thrown) : Act U A := λ s, (inl e, s).

(** [try { m } catch (err) { h err }] *)
Definition try_catch {U A} (m : Act U A) (h : Js.Thrown → Act U A) : Act U A :=
  λ s, match m s with
       | (inr a, s') => (inr a, s')
       | (inl e, s') => h e s'
       end.

(** [try { m } finally { f }], for a [finally] block that does not throw. *)
Definition finally {U A} (m : Act U A) (f : U → U) : Act U A :=
  λ s, let '(r, s') := m s in
       (r, {| ui := f (ui s'); backend := backend s'; calls := calls s' |}).

(** [setState(prev => f prev)] *)
Definition setState {U} (f : U → U) : Act U unit :=
  λ s, (inr tt, {| ui := f (ui s); backend := backend s; calls := calls s |}).

(** A request answered with [{ data, error }]: recorded, then either refused
    by the environment, or performed. *)
Definition request {U R} (env : Env) (c : Call)
  (perform : Backend → Js.Thrown + (R * Backend)) : Act U (Js.Thrown + R) :=
  λ s,
    let log := calls s ++ [c] in
    match refuses env c with
    | Some e => (inr (inl e), {| ui := ui s; backend := backend s; calls := log |})
    | None =>
        match perform (backend s) with
        | inl e => (inr (inl e), {| ui := ui s; backend := backend s; calls := log |})
        | inr (r, b') => (inr (inr r), {| ui := ui s; backend := b'; calls := log |})
        end
    end.

(** The [error] member of a response. *)
Definition error_of {R} (r : Js.Thrown + R) : option Js.Thrown :=
  match r with inl e => Some e | inr _ => None end.

(** A promise that resolves or rejects: awaiting a rejection throws. *)
Definition await {U R} (m : Act U (Js.Thrown + R)) : Act U R :=
  r ← m; match r with inl e => throw e | inr x => mret x end.

Definition auth_getUser {U} (env : Env) : Act U (option User.t) :=
  λ s, (inr (user env),
        {| ui := ui s; backend := backend s; calls := calls s ++ [AuthGetUser] |}).

Definition upload {U} (env : Env) (p : string) (f : File.t) : Act U (Js.Thrown + unit) :=
  request env (StorageUpload p f)
    (λ b, match storage_upload env p f b with
          | inl e => inl e
          | inr b' => inr (tt, b')
          end).

Definition remove {U} (env : Env) (paths : list string) : Act U (Js.Thrown + unit) :=
  request env (StorageRemove paths) (λ b, inr (tt, storage_remove paths b)).

Definition list_objects {U} (env : Env) (folder : string) (search : option string)
  : Act U (Js.Thrown + list (string * File.t)) :=
  request env (StorageList folder search)
    (λ b, inr (storage_list env folder search b, b)).

Definition createSignedUrl {U} (env : Env) (p : string) (expiresIn : Z)
  : Act U (Js.Thrown + option string) :=
  request env (StorageCreateSignedUrl p expiresIn) (λ b, inr (signedUrl env p, b)).

Definition insert {U} (env : Env) (r : NewFile.t) : Act U (Js.Thrown + unit) :=
  request env (FilesInsert r)
    (λ b, match files_insert env r b with
          | inl e => inl e
          | inr b' => inr (tt, b')
          end).

Definition delete_eq_id {U} (env : Env) (i : string) : Act U (Js.Thrown + unit) :=
  request env (FilesDelete i) (λ b, inr (tt, files_delete env i b)).

Definition update_download_count {U} (env : Env) (i : string) (n : Z)
  : Act U (Js.Thrown + unit) :=
  request env (FilesUpdateDownloadCount i n)
    (λ b, inr (tt, files_update_download_count env i n b)).

Definition clipboard_writeText {U} (env : Env) (s : string) : Act U (Js.Thrown + unit) :=
  request env (ClipboardWriteText s) (λ b, inr (tt, b)).

(** A list refresh ([fetchFiles()], [fetchDashboardData()]) started without
    being awaited: it only reads the backend. *)
Definition refresh {U} : Act U unit :=
  λ s, (inr tt, {| ui := ui s; backend := backend s; calls := calls s ++ [Refresh] |}).

(** [new Date(t).toISOString()]: a [RangeError] outside the range of time
    values. *)
Definition toISOString (t : Z) : Js.Thrown + Z :=
  if bool_decide (Z.abs t ≤ 8640000000000000) then inr t
  else inl (Js.Error "Invalid time value").

(** An expression that yields a value or throws. *)
Definition eval {U A} (r : Js.Thrown + A) : Act U A :=
  match r with inl e => throw e | inr a => mret a end.

(** The state a handler starts from. *)
Definition start {U} (u : U) (b : Backend) : Sys U :=
  {| ui := u; backend := b; calls := [] |}.

(** ** [FileUpload.tsx] *)

Module FileUploadState.
Record t := {
  file : option File.t;
  recipientEmail : string;
  expiryDays : Z;
  uploading : bool;
  error : option string;
  success : bool;
  fileContent : option string;
  message : Js.text;
  preview : option string
}.
End FileUploadState.

Module FileUpload.
Import FileUploadState.

Definition validation_message : string :=
  "Please either select a file to upload or enter a message".

(** [!file && !message.trim()] *)
Definition nothing_to_send (file : option File.t) (message : Js.text) : bool :=
  negb (bool_decide (is_Some file)) && negb (Js.truthy_text (Js.trim message)).

(** [file.name.split('.').pop() || ''] *)
Definition fileExt (f : File.t) : string :=
  Js.or_string (default EmptyString (Js.pop (Js.split "." (File.name f)))) EmptyString.

(** [`${Math.random().toString(36).substring(2)}_${Date.now()}.${fileExt}`] *)
Definition fileName (env : Env) (f : File.t) : string :=
  random36 env +:+ "_" +:+ pretty (now_name env) +:+ "." +:+ fileExt f.

(** [`${user.id}/${fileName}`] *)
Definition filePath_of (env : Env) (u : User.t) (f : File.t) : string :=
  User.id u +:+ "/" +:+ fileName env f.

(** [x || null] on a string *)
Definition or_null (s : string) : option string :=
  if Js.truthy_string s then Some s else None.

(** [recipientEmail || user.email] *)
Definition finalRecipientEmail (recipientEmail : string) (u : User.t) : option string :=
  if Js.truthy_string recipientEmail then Some recipientEmail else User.email u.

Definition set_error (e : string) (prev : t) : t :=
  {| file := file prev; recipientEmail := recipientEmail prev;
     expiryDays := expiryDays prev; uploading := uploading prev;
     error := Some e; success := success prev;
     fileContent := fileContent prev; message := message prev;
     preview := preview prev |}.

Definition set_uploading (prev : t) : t :=
  {| file := file prev; recipientEmail := recipientEmail prev;
     expiryDays := expiryDays prev; uploading := true;
     error := None; success := success prev;
     fileContent := fileContent prev; message := message prev;
     preview := preview prev |}.

Definition set_failed (e : string) (prev : t) : t :=
  {| file := file prev; recipientEmail := recipientEmail prev;
     expiryDays := expiryDays prev; uploading := false;
     error := Some e; success := success prev;
     fileContent := fileContent prev; message := message prev;
     preview := preview prev |}.

(** The reset of the form on success. *)
Definition set_done (prev : t) : t :=
  {| file := None; recipientEmail := EmptyString;
     expiryDays := 7; uploading := false;
     error := None; success := true;
     fileContent := None; message := [];
     preview := None |}.

(** [state.expiryDays
       ? new Date(Date.now() + state.expiryDays * 24 * 60 * 60 * 1000).toISOString()
       : null] *)
Definition expiry_date (env : Env) (state : t) : Js.Thrown + option Z :=
  if bool_decide (expiryDays state ≠ 0)
  then match toISOString (now_expiry env + expiryDays state * 24 * 60 * 60 * 1000) with
       | inl e => inl e
       | inr t => inr (Some t)
       end
  else inr None.

(** The object written to the [files] table. *)
Definition new_file (state : t) (u : User.t) (filePath : string)
  (expiry : option Z) : NewFile.t :=
  {| NewFile.name := match file state with
                     | Some f => Js.or_string (File.name f) "Message Only"
                     | None => "Message Only"
                     end;
     NewFile.path := or_null filePath;
     NewFile.recipient_email := finalRecipientEmail (recipientEmail state) u;
     NewFile.expiry_date := expiry;
     NewFile.user_id := User.id u;
     NewFile.download_count := 0;
     NewFile.message := Js.trim (message state);
     NewFile.type := if bool_decide (is_Some (file state))
                     then file_and_message else message_only |}.

(** The [try] block of [handleSubmit] once [user] is known. *)
Definition submit_as (env : Env) (state : t) (user : option User.t) : Act t unit :=
  match user with
  | None => throw (Js.Error "User not authenticated")
  | Some user =>
      '(filePath, uploadError) ←
        match file state with
        | Some f =>
            let filePath := filePath_of env user f in
            r ← upload env filePath f;
            mret (filePath, error_of r)
        | None => mret (EmptyString, None)
        end;
      match uploadError with
      | Some e => throw e
      | None =>
          expiry ← eval (expiry_date env state);
          r ← insert env (new_file state user filePath expiry);
          match error_of r with
          | Some dbError =>
              (if Js.truthy_string filePath
               then remove env [filePath];; mret tt
               else mret tt);;
              throw dbError
          | None => setState set_done
          end
      end
  end.

(** The body of the [try] block of [handleSubmit]. *)
Definition submit (env : Env) (state : t) : Act t unit :=
  setState set_uploading;;
  user ← auth_getUser env;
  submit_as env state user.

Definition handleSubmit (env : Env) (state : t) : Act t unit :=
  if nothing_to_send (file state) (message state)
  then setState (set_error validation_message)
  else try_catch (submit env state)
         (λ err, setState (set_failed
                   (Js.message_or err "Error sending. Please try again."))).

(** The state of [useState] when the component mounts. *)
Definition initial : t :=
  {| file := None; recipientEmail := EmptyString;
     expiryDays := 7; uploading := false;
     error := None; success := false;
     fileContent := None; message := [];
     preview := None |}.

(** [handleMessageChange]: [{ ...prev, message, error: null }] *)
Definition handleMessageChange (m : Js.text) (prev : t) : t :=
  {| file := file prev; recipientEmail := recipientEmail prev;
     expiryDays := expiryDays prev; uploading := uploading prev;
     error := None; success := success prev;
     fileContent := fileContent prev; message := m;
     preview := preview prev |}.

(** [handleFileSelection(null)], the state update of [clearFileSelection] *)
Definition clearFileSelection (prev : t) : t :=
  {| file := None; recipientEmail := recipientEmail prev;
     expiryDays := expiryDays prev; uploading := uploading prev;
     error := None; success := false;
     fileContent := None; message := message prev;
     preview := None |}.

(** The state update of [handleCancel] *)
Definition handleCancel (prev : t) : t :=
  {| file := None; recipientEmail := EmptyString;
     expiryDays := 7; uploading := false;
     error := None; success := false;
     fileContent := None; message := [];
     preview := None |}.

(** [getButtonText] *)
Definition getButtonText (state : t) : string :=
  if uploading state
  then (if bool_decide (is_Some (file state)) then "Uploading..." else "Sending...")
  else if nothing_to_send (file state) (message state) then "Send"
  else if bool_decide (is_Some (file state)) then "Upload File & Message"
  else "Send Message".

(** [canSubmit = state.file || state.message.trim()], as a truth value *)
Definition canSubmit (state : t) : bool :=
  bool_decide (is_Some (file state)) || Js.truthy_text (Js.trim (message state)).

(** [disabled={state.uploading || !canSubmit}] of the submit button *)
Definition submit_disabled (state : t) : bool :=
  uploading state || negb (canSubmit state).

End FileUpload.

(** *** The styled upload form

    The second form component of [FileUpload.tsx] has the same
    [handleSubmit] and checks the size of a chosen file first. *)

(** Focus a handler of a sub-state on the state of the whole component. *)
Definition zoom {U V A} (get : V → U) (set : U → V → V) (m : Act U A) : Act V A :=
  λ s,
    let '(r, s') := m {| ui := get (ui s); backend := backend s; calls := calls s |} in
    (r, {| ui := set (ui s') (ui s); backend := backend s'; calls := calls s' |}).

Module StyledUpload.
Import FileUploadState.

Record t := { state : FileUploadState.t; isDragging : bool }.

Definition MAX_FILE_SIZE : Z := 50 * 1024 * 1024.

Section WithFormatSize.

(** [formatSize] renders a byte count with floating-point logarithms; only
    its result as a string matters here. *)
Variable formatSize : Z → string.

Definition validateFile (f : File.t) : option string :=
  if bool_decide (File.size f > MAX_FILE_SIZE)
  then Some ("File size exceeds 50MB limit (" +:+ formatSize (File.size f) +:+ ")")
  else None.

(** [{ ...prev, error, file: null }] *)
Definition reject (e : string) (prev : t) : t :=
  {| state :=
       {| file := None; recipientEmail := recipientEmail (state prev);
          expiryDays := expiryDays (state prev); uploading := uploading (state prev);
          error := Some e; success := success (state prev);
          fileContent := fileContent (state prev); message := message (state prev);
          preview := preview (state prev) |};
     isDragging := isDragging prev |}.

(** [{ ...prev, file: f, error: null }] *)
Definition accept (f : File.t) (prev : t) : t :=
  {| state :=
       {| file := Some f; recipientEmail := recipientEmail (state prev);
          expiryDays := expiryDays (state prev); uploading := uploading (state prev);
          error := None; success := success (state prev);
          fileContent := fileContent (state prev); message := message (state prev);
          preview := preview (state prev) |};
     isDragging := isDragging prev |}.

Definition setIsDragging (d : bool) (prev : t) : t :=
  {| state := state prev; isDragging := d |}.

(** The failing [validateFile] result seen by [if (error)]. *)
Definition size_error (f : File.t) : option string :=
  match validateFile f with
  | Some e => if Js.truthy_string e then Some e else None
  | None => None
  end.

(** [handleDrop], on [e.dataTransfer.files?.[0]] *)
Definition handleDrop (droppedFile : option File.t) : Act t unit :=
  match droppedFile with
  | Some f =>
      match size_error f with
      | Some e => setState (reject e)
      | None => setState (accept f);; setState (setIsDragging false)
      end
  | None => setState (setIsDragging false)
  end.

(** [handleFileChange], on [e.target.files?.[0]] *)
Definition handleFileChange (selectedFile : option File.t) : Act t unit :=
  match selectedFile with
  | Some f =>
      match size_error f with
      | Some e => setState (reject e)
      | None => setState (accept f)
      end
  | None => mret tt
  end.

End WithFormatSize.

Definition handleSubmit (env : Env) (st : FileUploadState.t) : Act t unit :=
  zoom state (λ u v, {| state := u; isDragging := isDragging v |})
       (FileUpload.handleSubmit env st).

End StyledUpload.

(** ** [FileList.tsx] *)

(** Truthiness of an optional path: [null] and the empty string are falsy. *)
Definition truthy_path (p : option string) : bool :=
  match p with Some s => Js.truthy_string s | None => false end.

Module FileList.

Record t := {
  files : list FileData.t;
  error : option string;
  deleting : option string;
  deleteSuccess : option string
}.

Definition setFiles (f : list FileData.t → list FileData.t) (prev : t) : t :=
  {| files := f (files prev); error := error prev;
     deleting := deleting prev; deleteSuccess := deleteSuccess prev |}.

Definition setError (e : option string) (prev : t) : t :=
  {| files := files prev; error := e;
     deleting := deleting prev; deleteSuccess := deleteSuccess prev |}.

Definition setDeleting (d : option string) (prev : t) : t :=
  {| files := files prev; error := error prev;
     deleting := d; deleteSuccess := deleteSuccess prev |}.

Definition setDeleteSuccess (m : option string) (prev : t) : t :=
  {| files := files prev; error := error prev;
     deleting := deleting prev; deleteSuccess := m |}.

(** [prev.filter(f => f.id !== id)] *)
(** The double quote character. *)
Definition dquote : string := String (Ascii.ascii_of_nat 34) EmptyString.

Definition without (i : string) (l : list FileData.t) : list FileData.t :=
  List.filter (λ f, negb (bool_decide (FileData.id f = i))) l.

Definition handleDelete (env : Env) (file : FileData.t) : Act t unit :=
  finally
    (try_catch
       (setState (setDeleting (Some (FileData.id file)));;
        setState (setError None);;
        (if truthy_path (FileData.path file)
         then r ← remove env [default EmptyString (FileData.path file)];
              match error_of r with
              | Some storageError => throw storageError
              | None => mret tt
              end
         else mret tt);;
        r ← delete_eq_id env (FileData.id file);
        match error_of r with
        | Some dbError => throw dbError
        | None =>
            setState (setFiles (without (FileData.id file)));;
            setState (setDeleteSuccess
              (Some (dquote +:+ FileData.name file +:+ dquote +:+ " has been deleted")))
        end)
       (λ err, setState (setError (Some (Js.message_or err "Error deleting file")))))
    (setDeleting None).

(** [(files.find(f => f.id === fileId)?.download_count ?? 0) + 1] *)
Definition next_download_count (fs : list FileData.t) (fileId : string) : Z :=
  default 0 (f ← List.find (λ f, bool_decide (FileData.id f = fileId)) fs;
             FileData.download_count f) + 1.

Definition not_found : Js.Thrown := Js.Error "File not found in storage".

(** The body of the [try] block of [generateShareableLink], for a truthy
    [path]; [fs] is the [files] state the handler closes over. *)
Definition share (env : Env) (fs : list FileData.t) (fileId path : string)
  : Act t unit :=
  setState (setDeleting (Some fileId));;
  let parts := Js.split "/" path in
  r ← list_objects env (default EmptyString (parts !! 0%nat)) (parts !! 1%nat);
  match r with
  | inl checkError => throw checkError
  | inr checkData =>
      if bool_decide (length checkData = 0%nat) then throw not_found
      else
        r ← createSignedUrl env path 3600;
        match r with
        | inl e => throw e
        | inr data =>
            if negb (truthy_path data)
            then throw (Js.Error "Failed to generate signed URL")
            else
              await (clipboard_writeText env (default EmptyString data));;
              setState (setDeleteSuccess
                (Some "Link copied to clipboard! The link will expire in 1 hour."));;
              r ← update_download_count env fileId (next_download_count fs fileId);
              match error_of r with
              | Some updateError => mret tt
              | None => refresh
              end
        end
  end.

Definition generateShareableLink (env : Env) (fs : list FileData.t)
  (fileId : string) (path : option string) : Act t unit :=
  if negb (truthy_path path) then mret tt
  else
    finally
      (try_catch (share env fs fileId (default EmptyString path))
         (λ err, setState (setError
                   (Some (Js.message_or err "Error generating shareable link")))))
      (setDeleting None).

End FileList.

(** ** The dashboard list component *)

Module DashboardList.

Record t := {
  files : list FileData.t;
  fileToDelete : option FileData.t;
  activeDropdown : option string;
  error : option string;
  success : option string;
  isDeleting : bool
}.

Definition setFiles (fs : list FileData.t) (prev : t) : t :=
  {| files := fs; fileToDelete := fileToDelete prev;
     activeDropdown := activeDropdown prev; error := error prev;
     success := success prev; isDeleting := isDeleting prev |}.

Definition setFileToDelete (f : option FileData.t) (prev : t) : t :=
  {| files := files prev; fileToDelete := f;
     activeDropdown := activeDropdown prev; error := error prev;
     success := success prev; isDeleting := isDeleting prev |}.

Definition setActiveDropdown (d : option string) (prev : t) : t :=
  {| files := files prev; fileToDelete := fileToDelete prev;
     activeDropdown := d; error := error prev;
     success := success prev; isDeleting := isDeleting prev |}.

Definition setError (e : option string) (prev : t) : t :=
  {| files := files prev; fileToDelete := fileToDelete prev;
     activeDropdown := activeDropdown prev; error := e;
     success := success prev; isDeleting := isDeleting prev |}.

Definition setSuccess (m : option string) (prev : t) : t :=
  {| files := files prev; fileToDelete := fileToDelete prev;
     activeDropdown := activeDropdown prev; error := error prev;
     success := m; isDeleting := isDeleting prev |}.

Definition setIsDeleting (d : bool) (prev : t) : t :=
  {| files := files prev; fileToDelete := fileToDelete prev;
     activeDropdown := activeDropdown prev; error := error prev;
     success := success prev; isDeleting := d |}.

(** [handleDelete], run on the state [st] it closes over. *)
Definition handleDelete (env : Env) (st : t) : Act t unit :=
  match fileToDelete st with
  | None => mret tt
  | Some fileToDelete =>
      setState (setIsDeleting true);;
      finally
        (try_catch
           ((if truthy_path (FileData.path fileToDelete)
             then r ← remove env [default EmptyString (FileData.path fileToDelete)];
                  match error_of r with
                  | Some storageError => throw storageError
                  | None => mret tt
                  end
             else mret tt);;
            r ← delete_eq_id env (FileData.id fileToDelete);
            match error_of r with
            | Some dbError => throw dbError
            | None =>
                setState (setSuccess (Some "File deleted successfully"));;
                setState (setFiles
                  (FileList.without (FileData.id fileToDelete) (files st)));;
                setState (setFileToDelete None);;
                refresh
            end)
           (λ err, setState (setError (Some "Failed to delete file"))))
        (setIsDeleting false)
  end.

(** [(file.download_count || 0) + 1] *)
Definition next_download_count (file : FileData.t) : Z :=
  default 0 (FileData.download_count file) + 1.

(** [handleShareLink]. Reading [data.signedUrl] of a response without data
    is a [TypeError]. *)
Definition handleShareLink (env : Env) (file : FileData.t) : Act t unit :=
  try_catch
    (if negb (truthy_path (FileData.path file))
     then setState (setError (Some "No file to share"))
     else
       let path := default EmptyString (FileData.path file) in
       r ← createSignedUrl env path 3600;
       match r with
       | inl e => throw e
       | inr data =>
           match data with
           | None => throw (Js.Error "Cannot read properties of null")
           | Some signedUrl =>
               await (clipboard_writeText env signedUrl);;
               setState (setSuccess (Some "Share link copied to clipboard"));;
               setState (setActiveDropdown None);;
               update_download_count env (FileData.id file)
                 (next_download_count file);;
               mret tt
           end
       end)
    (λ err, setState (setError (Some "Failed to generate share link"))).

End DashboardList.

(** *** Sorting the dashboard list *)

(** [type SortField] and [type SortOrder] *)
Module SortField.
Inductive t := created_at | name | size | view_count | download_count.

#[global] Instance eq_dec : EqDecision t.
Proof. solve_decision. Defined.
End SortField.

Module SortOrder.
Inductive t := asc | desc.
End SortOrder.

Module DashboardSort.

(** The sort criteria of the component and the state of its menu. *)
Record t := {
  sortField : SortField.t;
  sortOrder : SortOrder.t;
  showSortMenu : bool
}.

Section WithLocale.

(** [a.localeCompare(b)], which depends on the locale of the browser. *)
Variable localeCompare : string → string → Z.

(** The number compared for a numeric field: [a.size || 0],
    [a.view_count || 0], [a.download_count || 0],
    [new Date(a.created_at).getTime()]. *)
Definition key (field : SortField.t) (a : FileData.t) : Z :=
  match field with
  | SortField.size => FileData.size a
  | SortField.view_count => default 0 (FileData.view_count a)
  | SortField.download_count => default 0 (FileData.download_count a)
  | _ => FileRow.created_at (FileData.row a)
  end.

(** The [switch] on [sortField] in the comparator. *)
Definition comparison (field : SortField.t) (a b : FileData.t) : Z :=
  match field with
  | SortField.name => localeCompare (FileData.name a) (FileData.name b)
  | _ => key field a - key field b
  end.

(** [sortOrder === 'asc' ? comparison : -comparison] *)
Definition comparator (field : SortField.t) (order : SortOrder.t)
  (a b : FileData.t) : Z :=
  match order with
  | SortOrder.asc => comparison field a b
  | SortOrder.desc => - comparison field a b
  end.

(** [Array.prototype.sort] is stable: elements the comparator does not
    separate keep their order. The arrangement is computed by insertion. *)
Fixpoint insert_by (cmp : FileData.t → FileData.t → Z) (x : FileData.t)
  (l : list FileData.t) : list FileData.t :=
  match l with
  | [] => [x]
  | y :: l' => if bool_decide (cmp x y ≤ 0) then x :: y :: l'
               else y :: insert_by cmp x l'
  end.

Definition sort (cmp : FileData.t → FileData.t → Z) (l : list FileData.t)
  : list FileData.t :=
  foldr (insert_by cmp) [] l.

(** The list set by the sorting effect: [[...files].sort(...)] *)
Definition sortedFiles (st : t) (files : list FileData.t) : list FileData.t :=
  sort (comparator (sortField st) (sortOrder st)) files.

End WithLocale.

(** [handleSort] *)
Definition handleSort (field : SortField.t) (st : t) : t :=
  if bool_decide (field = sortField st)
  then {| sortField := sortField st;
          sortOrder := match sortOrder st with
                       | SortOrder.asc => SortOrder.desc
                       | SortOrder.desc => SortOrder.asc
                       end;
          showSortMenu := false |}
  else {| sortField := field; sortOrder := SortOrder.desc; showSortMenu := false |}.

End DashboardSort.

(** ** [Dashboard.tsx] *)

Module Dashboard.

Record DashboardStats := {
  totalFiles : Z;
  activeTransfers : Z;
  totalDownloads : Z
}.

Record t := { stats : DashboardStats; loading : bool }.

(** A count query: [count] is [null] when the request is refused. *)
Definition count {U} (env : Env) (gte_expiry_date : option Z) : Act U (option Z) :=
  r ← request env (FilesCount gte_expiry_date)
        (λ b, inr (files_count env gte_expiry_date b, b));
  mret (match r with inr n => Some n | inl _ => None end).

Definition select_download_count {U} (env : Env) : Act U (option (list (option Z))) :=
  r ← request env FilesSelectDownloadCount
        (λ b, inr (files_download_counts env b, b));
  mret (match r with inr l => Some l | inl _ => None end).

(** [downloads?.reduce((acc, curr) => acc + (curr.download_count || 0), 0) || 0] *)
Definition sum_downloads (downloads : option (list (option Z))) : Z :=
  match downloads with
  | Some l => foldl (λ acc curr, acc + default 0 curr) 0 l
  | None => 0
  end.

(** [fetchDashboardStats]; [now] is [new Date()] of the second query. *)
Definition fetchDashboardStats (env : Env) (now : Z) : Act t unit :=
  finally
    (try_catch
       (totalFiles ← count env None;
        activeTransfers ← count env (Some now);
        downloads ← select_download_count env;
        setState (λ prev,
          {| stats := {| totalFiles := default 0 totalFiles;
                         activeTransfers := default 0 activeTransfers;
                         totalDownloads := sum_downloads downloads |};
             loading := loading prev |}))
       (λ err, mret tt))
    (λ prev, {| stats := stats prev; loading := false |}).

End Dashboard.

(** ** Notions used in statements and proofs *)

(** Handlers only add to the record of requests. *)
Definition extends {U A} (m : Act U A) : Prop :=
  ∀ s, ∃ rest, calls (m s).2 = calls s ++ rest.

(** Requests that store an object. *)
Definition is_upload (c : Call) : bool :=
  match c with StorageUpload _ _ => true | _ => false end.

(** Requests that look objects up in the bucket. *)
Definition is_lookup (c : Call) : bool :=
  match c with StorageList _ _ => true | _ => false end.

(** What a deletion of the entry [(path, i)] does to the backend and which
    requests it sends: the removal of the object first, when there is a
    path, and the deletion of the row only if that removal was not refused. *)
Definition delete_effect (env : Env) (path : option string) (i : string)
  (b : Backend) : Backend * list Call :=
  if truthy_path path then
    let p := default EmptyString path in
    match refuses env (StorageRemove [p]) with
    | Some _ => (b, [StorageRemove [p]])
    | None =>
        match refuses env (FilesDelete i) with
        | Some _ => (storage_remove [p] b, [StorageRemove [p]; FilesDelete i])
        | None => (files_delete env i (storage_remove [p] b),
                   [StorageRemove [p]; FilesDelete i])
        end
    end
  else
    match refuses env (FilesDelete i) with
    | Some _ => (b, [FilesDelete i])
    | None => (files_delete env i b, [FilesDelete i])
    end.

(** The object at [p] is removed before the row [i] is deleted. In the
    system [s'] reached from backend [b]: when the removal is refused it is
    the only request, the backend is [b], so the row stays, and the failure
    [shown]; when the removal is accepted the requests are the removal,
    then the deletion of the row, then at most a refresh of the list, and
    the object is gone. *)
Definition removal_first {U} (env : Env) (p i : string) (b : Backend)
  (s' : Sys U) (shown : Js.Thrown → Prop) : Prop :=
  (∀ e, refuses env (StorageRemove [p]) = Some e →
     calls s' = [StorageRemove [p]] ∧ backend s' = b ∧ shown e)
  ∧ (refuses env (StorageRemove [p]) = None →
     (∃ rest, calls s' = StorageRemove [p] :: FilesDelete i :: rest
              ∧ (rest = [] ∨ rest = [Refresh]))
     ∧ objects (backend s') !! p = None).

(** The row [i] is deleted without any removal: the deletion is the first
    request, followed by at most a refresh of the list. *)
Definition deletion_only {U} (i : string) (s' : Sys U) : Prop :=
  ∃ rest, calls s' = FilesDelete i :: rest ∧ (rest = [] ∨ rest = [Refresh]).

(** The error member of the response to the upload of [f] at [p] in
    backend [b]. *)
Definition upload_error (env : Env) (p : string) (f : File.t) (b : Backend)
  : option Js.Thrown :=
  match refuses env (StorageUpload p f) with
  | Some e => Some e
  | None => match storage_upload env p f b with inl e => Some e | inr _ => None end
  end.

(** Whether the character [c] occurs in [s]. *)
Fixpoint has_char (c : ascii) (s : string) : bool :=
  match s with
  | EmptyString => false
  | String d s' => Ascii.eqb d c || has_char c s'
  end.

(** [arr.join(sep)] for a one-character separator. *)
Fixpoint join (sep : ascii) (l : list string) : string :=
  match l with
  | [] => EmptyString
  | [w] => w
  | w :: l' => w +:+ String sep (join sep l')
  end.

(** The message of the list after a link was copied. *)
Definition link_copied : string :=
  "Link copied to clipboard! The link will expire in 1 hour.".

Section SubmissionNotions.
Import FileUploadState FileUpload.

(** The backend once [f] is stored at the free path [p]. *)
Definition uploaded (p : string) (f : File.t) (b : Backend) : Backend :=
  {| objects := <[p := f]> (objects b); files := files b |}.


(** The path sent with the insert: the object path, or the empty string
    when there is no file. *)
Definition sent_path (env : Env) (st : t) (u : User.t) : string :=
  match file st with
  | Some f => filePath_of env u f
  | None => EmptyString
  end.

(** The system after [handleSubmit] ran on form state [st] and backend [b]. *)
Definition submitted (env : Env) (st : t) (b : Backend) : Sys t :=
  (handleSubmit env st (start st b)).2.

End SubmissionNotions.

(** ** Sample data

    A small environment and backend on which the handlers are evaluated. *)

Module Sample.
Import FileUploadState.

Definition alice : User.t :=
  {| User.id := "alice"; User.email := Some "alice@example.org"%string |}.

Definition bob : User.t :=
  {| User.id := "bob"; User.email := Some "bob@example.org"%string |}.

(** Alice is signed in and the provider refuses nothing. *)
Definition env : Env :=
  {| user := Some alice;
     refuses := λ _, None;
     violation := λ c, {| Js.instanceofError := false; Js.message := c |};
     random36 := "k3x9";
     now_name := 1700000000000;
     now_expiry := 1700000000500;
     uuid := "row-1";
     created := 1700000000900;
     view_count_default := None;
     signedUrl := λ p, Some ("https://storage.example/sign/" +:+ p);
     search_hit := String.eqb |}.

Definition with_refusal (e : Env) (r : Call → option Js.Thrown) : Env :=
  {| user := user e; refuses := r; violation := violation e;
     random36 := random36 e; now_name := now_name e; now_expiry := now_expiry e;
     uuid := uuid e; created := created e;
     view_count_default := view_count_default e;
     signedUrl := signedUrl e; search_hit := search_hit e |}.

Definition empty : Backend := {| objects := ∅; files := ∅ |}.

Definition unavailable : Js.Thrown :=
  {| Js.instanceofError := false; Js.message := "service unavailable" |}.



(** The signer refuses to sign. *)
Definition no_signature (c : Call) : option Js.Thrown :=
  match c with
  | StorageCreateSignedUrl _ _ =>
      Some {| Js.instanceofError := true; Js.message := "Object not found" |}
  | _ => None
  end.

(** The bucket refuses removals. *)
Definition no_remove (c : Call) : option Js.Thrown :=
  match c with StorageRemove _ => Some unavailable | _ => None end.

Definition notes : File.t :=
  {| File.name := "notes.txt"; File.size := 12; File.type := "text/plain" |}.

Definition huge : File.t :=
  {| File.name := "movie.mp4"; File.size := 52428801; File.type := "video/mp4" |}.

Definition blank : FileUploadState.t :=
  {| file := None; recipientEmail := EmptyString; expiryDays := 7;
     uploading := false; error := None; success := false;
     fileContent := None; message := []; preview := None |}.

Definition form (f : option File.t) (m : string) (days : Z) : FileUploadState.t :=
  {| file := f; recipientEmail := EmptyString; expiryDays := days;
     uploading := false; error := None; success := false;
     fileContent := None; message := Js.units m; preview := None |}.

Definition row (i owner : string) (p : option string) (expiry : option Z)
  (m : string) : FileRow.t :=
  {| FileRow.id := i; FileRow.name := "notes.txt"; FileRow.path := p;
     FileRow.recipient_email := "friend@example.org";
     FileRow.expiry_date := expiry; FileRow.created_at := 1600000000000;
     FileRow.user_id := owner; FileRow.download_count := Some 2;
     FileRow.view_count := Some 0; FileRow.message := Some (Js.units m);
     FileRow.type := match p with Some _ => file_and_message | None => message_only end |}.

Definition entry (r : FileRow.t) : FileData.t :=
  {| FileData.row := r; FileData.size := 12 |}.

(** Alice's file that expires, Bob's message, Alice's message that never
    expires. *)
Definition alices_file : FileRow.t :=
  row "row-a" "alice" (Some "alice/notes.txt"%string) (Some 1800000000000) "draft".

Definition bobs_message : FileRow.t :=
  row "row-b" "bob" None (Some 1800000000000) "for bob only".

Definition alices_message : FileRow.t :=
  row "row-c" "alice" None None "keep forever".

Definition stored : Backend :=
  {| objects := <["alice/notes.txt"%string := notes]> ∅;
     files := <["row-a"%string := alices_file]>
                (<["row-b"%string := bobs_message]>
                   (<["row-c"%string := alices_message]> ∅)) |}.

(** An entry whose object is no longer in the bucket. *)
Definition lost_file : FileRow.t :=
  row "row-d" "alice" (Some "alice/gone.txt"%string) None "lost".

Definition stored_lost : Backend :=
  {| objects := ∅; files := <["row-d"%string := lost_file]> ∅ |}.

(** A file of Bob, and a backend that holds it. *)
Definition bobs_file : FileRow.t :=
  row "row-e" "bob" (Some "bob/plan.txt"%string) None "plan".

Definition stored_bob : Backend :=
  {| objects := <["bob/plan.txt"%string := notes]> ∅;
     files := <["row-e"%string := bobs_file]> ∅ |}.

(** A row of Alice whose path is the empty string. *)
Definition empty_path : FileRow.t :=
  row "row-f" "alice" (Some EmptyString) None "no object".

Definition stored_empty_path : Backend :=
  {| objects := objects stored;
     files := <["row-f"%string := empty_path]> (files stored) |}.

Definition listing (rows : list FileRow.t) : FileList.t :=
  {| FileList.files := entry <$> rows; FileList.error := None;
     FileList.deleting := None; FileList.deleteSuccess := None |}.

Definition dashboard (rows : list FileRow.t) (chosen : option FileRow.t)
  : DashboardList.t :=
  {| DashboardList.files := entry <$> rows;
     DashboardList.fileToDelete := entry <$> chosen;
     DashboardList.activeDropdown := None; DashboardList.error := None;
     DashboardList.success := None; DashboardList.isDeleting := false |}.

End Sample.

(** ** Facts on [trim] *)

Section TrimFacts.
Import Js.

Lemma trimStart_split (s : text) :
  ∃ pre, s = pre ++ trimStart s ∧ Forall (λ c, isWhiteSpace c = true) pre.
Proof.
  induction s as [|c s IH]; simpl.
  - exists []. split; [reflexivity | constructor].
  - destruct (isWhiteSpace c) eqn:Hc.
    + destruct IH as (pre & Heq & Hall).
      exists (c :: pre). split.
      * simpl. congruence.
      * constructor; assumption.
    + exists []. split; [reflexivity | constructor].
Qed.

Lemma trimStart_head (s : text) (c : N) :
  head (trimStart s) = Some c → isWhiteSpace c = false.
Proof.
  induction s as [|d s IH]; simpl; [discriminate|].
  destruct (isWhiteSpace d) eqn:Hd; [exact IH|].
  simpl. intros [= <-]. exact Hd.
Qed.

Lemma trimStart_nil_iff (s : text) :
  trimStart s = [] ↔ Forall (λ c, isWhiteSpace c = true) s.
Proof.
  induction s as [|c s IH]; simpl.
  - split; [constructor | reflexivity].
  - destruct (isWhiteSpace c) eqn:Hc.
    + rewrite IH. split.
      * intros H. constructor; assumption.
      * intros H. inversion H; assumption.
    + split; [discriminate|].
      intros H. inversion H; congruence.
Qed.

Lemma trimEnd_split (s : text) :
  ∃ post, s = trimEnd s ++ post ∧ Forall (λ c, isWhiteSpace c = true) post.
Proof.
  unfold trimEnd.
  destruct (trimStart_split (reverse s)) as (pre & Heq & Hall).
  exists (reverse pre). split.
  - rewrite <- reverse_app, <- Heq, reverse_involutive. reflexivity.
  - apply Forall_reverse. exact Hall.
Qed.

Lemma trimEnd_last (s : text) (c : N) :
  last (trimEnd s) = Some c → isWhiteSpace c = false.
Proof.
  unfold trimEnd. rewrite last_reverse. apply trimStart_head.
Qed.

(** Trimming on the right keeps a first character that is not white space. *)
Lemma trimEnd_head (s : text) (c : N) :
  head s = Some c → isWhiteSpace c = false → head (trimEnd s) = Some c.
Proof.
  intros Hh Hc.
  destruct (trimEnd_split s) as (post & Heq & Hall).
  destruct (trimEnd s) as [|d t] eqn:Ht.
  - simpl in Heq. subst post.
    destruct s as [|d s]; [discriminate|]. simpl in Hh.
    injection Hh as ->. inversion Hall; congruence.
  - rewrite Heq in Hh. simpl in Hh. simpl. exact Hh.
Qed.

Lemma trim_nil_iff (s : text) :
  trim s = [] ↔ Forall (λ c, isWhiteSpace c = true) s.
Proof.
  unfold trim. split.
  - intros H.
    destruct (trimStart_split s) as (pre & Heq & Hpre).
    destruct (trimEnd_split (trimStart s)) as (post & Heq' & Hpost).
    rewrite H in Heq'. simpl in Heq'.
    rewrite Heq, Heq'. apply Forall_app. split; assumption.
  - intros H. apply trimStart_nil_iff in H. rewrite H. reflexivity.
Qed.

(** [trim s] is [s] without a white-space prefix and a white-space suffix,
    and it neither starts nor ends with white space. *)
Lemma trim_spec (s : text) :
  ∃ pre post,
    s = pre ++ trim s ++ post
    ∧ Forall (λ c, isWhiteSpace c = true) pre
    ∧ Forall (λ c, isWhiteSpace c = true) post
    ∧ (∀ c, head (trim s) = Some c → isWhiteSpace c = false)
    ∧ (∀ c, last (trim s) = Some c → isWhiteSpace c = false).
Proof.
  destruct (trimStart_split s) as (pre & Heq & Hpre).
  destruct (trimEnd_split (trimStart s)) as (post & Heq' & Hpost).
  exists pre, post. unfold trim. repeat split; try assumption.
  - rewrite <- Heq'. exact Heq.
  - intros c Hc.
    destruct (trimStart s) as [|d t] eqn:Ht; [discriminate|].
    assert (Hd : isWhiteSpace d = false).
    { apply (trimStart_head s). rewrite Ht. reflexivity. }
    rewrite (trimEnd_head (d :: t) d eq_refl Hd) in Hc.
    congruence.
  - apply trimEnd_last.
Qed.

End TrimFacts.

(** ** Running requests *)

Section Running.
Context {U : Type}.
Implicit Types (s : Sys U) (env : Env).

Lemma request_done {R} env c (perform : Backend → Js.Thrown + (R * Backend)) s r b' :
  refuses env c = None → perform (backend s) = inr (r, b') →
  request env c perform s
  = (inr (inr r), {| ui := ui s; backend := b'; calls := calls s ++ [c] |}).
Proof. intros H1 H2. unfold request. rewrite H1, H2. reflexivity. Qed.

(** A request changes neither the component state nor, when it returns an
    error, the backend; it adds itself to the record. *)
Lemma request_calls {R} env c (perform : Backend → Js.Thrown + (R * Backend)) s :
  calls (request env c perform s).2 = calls s ++ [c]
  ∧ ui (request env c perform s).2 = ui s.
Proof.
  unfold request. destruct (refuses env c); [split; reflexivity|].
  destruct (perform (backend s)) as [e|[r b']]; split; reflexivity.
Qed.

Lemma setState_bind {A} (f : U → U) (k : unit → Act U A) s :
  (setState f ≫= k) s
  = k tt {| ui := f (ui s); backend := backend s; calls := calls s |}.
Proof. reflexivity. Qed.

(** A [catch] block that only sets component state leaves the backend and
    the record of requests as the [try] block left them. *)
Lemma try_catch_setState (m : Act U unit) (g : Js.Thrown → U → U) s :
  backend (try_catch m (λ e, setState (g e)) s).2 = backend (m s).2
  ∧ calls (try_catch m (λ e, setState (g e)) s).2 = calls (m s).2.
Proof.
  unfold try_catch. destruct (m s) as [[e|a] s']; split; reflexivity.
Qed.

Lemma finally_run {A} (m : Act U A) (f : U → U) s :
  backend (finally m f s).2 = backend (m s).2
  ∧ calls (finally m f s).2 = calls (m s).2
  ∧ ui (finally m f s).2 = f (ui (m s).2).
Proof.
  unfold finally. destruct (m s) as [r s']. repeat split; reflexivity.
Qed.

End Running.

(** *** Handlers only add to the record of requests *)

Section Extends.
Context {U : Type}.

Lemma extends_ret {A} (a : A) : extends (U := U) (mret a).
Proof. intros s. exists []. cbn. rewrite app_nil_r. reflexivity. Qed.

Lemma extends_throw {A} (e : Js.Thrown) : extends (U := U) (A := A) (throw e).
Proof. intros s. exists []. cbn. rewrite app_nil_r. reflexivity. Qed.

Lemma extends_setState (f : U → U) : extends (setState f).
Proof. intros s. exists []. cbn. rewrite app_nil_r. reflexivity. Qed.

Lemma extends_refresh : extends (U := U) refresh.
Proof. intros s. exists [Refresh]. reflexivity. Qed.

Lemma extends_auth_getUser env : extends (U := U) (auth_getUser env).
Proof. intros s. exists [AuthGetUser]. reflexivity. Qed.

Lemma extends_request {R} env c (perform : Backend → Js.Thrown + (R * Backend)) :
  extends (U := U) (request env c perform).
Proof. intros s. exists [c]. apply request_calls. Qed.

Lemma extends_bind {A B} (m : Act U A) (f : A → Act U B) :
  extends m → (∀ a, extends (f a)) → extends (m ≫= f).
Proof.
  intros Hm Hf s. destruct (Hm s) as [r1 H1].
  unfold mbind, act_bind. destruct (m s) as [[e|a] s1]; cbn in *.
  - exists r1. exact H1.
  - destruct (Hf a s1) as [r2 H2]. exists (r1 ++ r2).
    rewrite H2, H1, app_assoc. reflexivity.
Qed.

Lemma extends_try_catch {A} (m : Act U A) (h : Js.Thrown → Act U A) :
  extends m → (∀ e, extends (h e)) → extends (try_catch m h).
Proof.
  intros Hm Hh s. destruct (Hm s) as [r1 H1].
  unfold try_catch. destruct (m s) as [[e|a] s1]; cbn in *.
  - destruct (Hh e s1) as [r2 H2]. exists (r1 ++ r2).
    rewrite H2, H1, app_assoc. reflexivity.
  - exists r1. exact H1.
Qed.

Lemma extends_finally {A} (m : Act U A) (f : U → U) :
  extends m → extends (finally m f).
Proof.
  intros Hm s. destruct (Hm s) as [r1 H1].
  unfold finally. destruct (m s) as [r s1]; cbn in *. exists r1. exact H1.
Qed.

Lemma extends_await {R} (m : Act U (Js.Thrown + R)) :
  extends m → extends (await m).
Proof.
  intros Hm. unfold await. apply extends_bind; [exact Hm|].
  intros [e|x]; [apply extends_throw | apply extends_ret].
Qed.

End Extends.

Ltac extends_tac :=
  repeat first
    [ apply extends_ret | apply extends_throw | apply extends_setState
    | apply extends_refresh | apply extends_auth_getUser
    | apply extends_request | apply extends_await
    | apply extends_finally | apply extends_try_catch
    | apply extends_bind
    | match goal with
      | |- ∀ _, _ => intro
      | |- extends (match ?x with _ => _ end) => destruct x
      | |- extends (let '(_, _) := ?x in _) => destruct x
      | |- extends (if ?x then _ else _) => destruct x
      end ].

(** ** The submission form *)

Section Submission.
Import FileUploadState FileUpload.

Lemma nothing_to_send_true (f : option File.t) (m : Js.text) :
  nothing_to_send f m = true ↔ f = None ∧ Js.trim m = [].
Proof.
  unfold nothing_to_send. case_bool_decide as Hf; simpl.
  - split; [discriminate|]. intros [-> _]. destruct Hf; discriminate.
  - assert (f = None) as ->.
    { destruct f; [exfalso; apply Hf; eauto | reflexivity]. }
    destruct (Js.trim m); simpl; split; try tauto; try discriminate.
    intros [_ ?]; discriminate.
Qed.

Lemma nothing_to_send_false (f : option File.t) (m : Js.text) :
  nothing_to_send f m = false ↔ is_Some f ∨ Js.trim m ≠ [].
Proof.
  destruct (nothing_to_send f m) eqn:H.
  - apply nothing_to_send_true in H as [-> ->].
    split; [discriminate|]. intros [[? ?]|?]; congruence.
  - split; [|reflexivity]. intros _.
    destruct f as [f|]; [left; eauto|]. right. intros Ht.
    assert (nothing_to_send None m = true) by (apply nothing_to_send_true; auto).
    congruence.
Qed.

Lemma submit_as_extends env st o : extends (submit_as env st o).
Proof. unfold submit_as, upload, insert, remove, eval. extends_tac. Qed.

Lemma submit_run env st s :
  submit env st s
  = submit_as env st (user env)
      {| ui := set_uploading (ui s); backend := backend s;
         calls := calls s ++ [AuthGetUser] |}.
Proof. reflexivity. Qed.

(** Whatever happens inside the [try] block, its first request is the
    look-up of the signed-in user. *)
Lemma submit_first_call env st s :
  ∃ rest, calls (submit env st s).2 = calls s ++ AuthGetUser :: rest.
Proof.
  destruct (submit_as_extends env st (user env)
    {| ui := set_uploading (ui s); backend := backend s;
       calls := calls s ++ [AuthGetUser] |}) as [rest Hrest].
  exists rest. rewrite submit_run, Hrest. cbn.
  rewrite <- app_assoc. reflexivity.
Qed.

Lemma upload_run env p f (s : Sys t) :
  refuses env (StorageUpload p f) = None → objects (backend s) !! p = None →
  upload env p f s
  = (inr (inr tt), {| ui := ui s; backend := uploaded p f (backend s);
                      calls := calls s ++ [StorageUpload p f] |}).
Proof.
  intros Hr Hfree. unfold upload. apply request_done; [exact Hr|].
  unfold storage_upload. rewrite Hfree. reflexivity.
Qed.



Lemma filePath_of_truthy env u f : Js.truthy_string (filePath_of env u f) = true.
Proof.
  unfold filePath_of. destruct (User.id u); reflexivity.
Qed.





Ltac failed_run := cbn; intros [= <- <-]; discriminate.

Lemma files_insert_inv env r b b' :
  files_insert env r b = inr b' →
  ∃ recipient,
    NewFile.recipient_email r = Some recipient
    ∧ files b !! uuid env = None
    ∧ b' = {| objects := objects b;
              files := <[uuid env := row_of env r recipient]> (files b) |}.
Proof.
  unfold files_insert.
  destruct (negb (bool_decide (uid env = Some (NewFile.user_id r)))); [discriminate|].
  destruct (NewFile.recipient_email r) as [recipient|]; [|discriminate].
  destruct (negb (files_content_check r)); [discriminate|].
  destruct (files b !! uuid env) eqn:Hfresh; [discriminate|].
  intros [= <-]. exists recipient. repeat split; reflexivity.
Qed.

Lemma storage_upload_inv env p f b b' :
  storage_upload env p f b = inr b' → objects b !! p = None ∧ b' = uploaded p f b.
Proof.
  unfold storage_upload. destruct (objects b !! p); [discriminate|].
  intros [= <-]. split; reflexivity.
Qed.

(** A submission has succeeded when the handler leaves no error in the
    form; the backend then holds the uploaded object, if any, and the new
    row. *)
Lemma handleSubmit_success_inv env st b r s' :
  handleSubmit env st (start st b) = (r, s') → error (ui s') = None →
  ∃ u expiry recipient,
    user env = Some u
    ∧ expiry_date env st = inr expiry
    ∧ finalRecipientEmail (recipientEmail st) u = Some recipient
    ∧ nothing_to_send (file st) (message st) = false
    ∧ files b !! uuid env = None
    ∧ files (backend s')
      = <[uuid env := row_of env (new_file st u (sent_path env st u) expiry) recipient]>
          (files b)
    ∧ objects (backend s')
      = match file st with
        | Some f => <[sent_path env st u := f]> (objects b)
        | None => objects b
        end
    ∧ ui s' = set_done (set_uploading st).
Proof.
  unfold handleSubmit.
  destruct (nothing_to_send (file st) (message st)) eqn:Hv; [failed_run|].
  unfold try_catch. rewrite submit_run.
  destruct (user env) as [u|] eqn:Hu; [|failed_run].
  unfold submit_as, sent_path.
  unfold mbind, act_bind, mret, act_ret, eval, throw, setState,
    upload, insert, remove, request.
  cbn [start ui backend calls].
  destruct (file st) as [f|] eqn:Hf.
  - cbn zeta.
    pose proof (filePath_of_truthy env u f) as Hp.
    set (p := filePath_of env u f) in *.
    destruct (refuses env (StorageUpload p f)); [failed_run|].
    cbn [error_of ui backend calls].
    destruct (storage_upload env p f b) as [e|b1] eqn:Hup; [failed_run|].
    cbn [error_of ui backend calls].
    destruct (expiry_date env st) as [e|expiry]; [failed_run|].
    unfold mret, act_ret. cbn [error_of ui backend calls].
    set (nf := new_file st u p expiry).
    destruct (refuses env (FilesInsert nf)).
    { cbn [error_of ui backend calls]. rewrite Hp.
      destruct (refuses env (StorageRemove [p])); failed_run. }
    cbn [error_of ui backend calls].
    destruct (files_insert env nf b1) as [e|b2] eqn:Hins.
    { cbn [error_of ui backend calls]. rewrite Hp.
      destruct (refuses env (StorageRemove [p])); failed_run. }
    cbn [error_of ui backend calls]. intros [= <- <-] _.
    apply storage_upload_inv in Hup as [Hfree ->].
    apply files_insert_inv in Hins as (recipient & Hrec & Hfresh & ->).
    exists u, expiry, recipient. cbn [files objects uploaded] in *.
    repeat split; try reflexivity; assumption.
  - destruct (expiry_date env st) as [e|expiry]; [failed_run|].
    unfold mret, act_ret. cbn [error_of ui backend calls].
    set (nf := new_file st u EmptyString expiry).
    destruct (refuses env (FilesInsert nf)); [failed_run|].
    cbn [error_of ui backend calls].
    destruct (files_insert env nf b) as [e|b2] eqn:Hins; [failed_run|].
    cbn [error_of ui backend calls]. intros [= <- <-] _.
    apply files_insert_inv in Hins as (recipient & Hrec & Hfresh & ->).
    exists u, expiry, recipient. cbn [files objects] in *.
    repeat split; try reflexivity; assumption.
Qed.

(** The row written by a submission that left no error in the form. *)
Lemma submitted_row env st b :
  error (ui (submitted env st b)) = None →
  ∃ u expiry recipient,
    user env = Some u
    ∧ nothing_to_send (file st) (message st) = false
    ∧ files b !! uuid env = None
    ∧ files (backend (submitted env st b)) !! uuid env
      = Some (row_of env (new_file st u (sent_path env st u) expiry) recipient).
Proof.
  intros Hok. unfold submitted in *.
  destruct (handleSubmit env st (start st b)) as [r s'] eqn:Hrun.
  destruct (handleSubmit_success_inv env st b r s' Hrun Hok)
    as (u & expiry & recipient & Hu & _ & _ & Hv & Hfresh & Hfiles & _).
  exists u, expiry, recipient. repeat split; try assumption.
  cbn [snd]. rewrite Hfiles. apply lookup_insert_eq.
Qed.

(** The path of a row written by [handleSubmit] is null or a non-empty
    string: [filePath || null] never stores the empty string. *)
Lemma handleSubmit_path_not_empty env st b :
  error (ui (submitted env st b)) = None →
  ∃ row,
    files (backend (submitted env st b)) !! uuid env = Some row
    ∧ (FileRow.path row = None
       ∨ ∃ p, FileRow.path row = Some p ∧ p ≠ EmptyString).
Proof.
  intros Hok.
  destruct (submitted_row env st b Hok)
    as (u & expiry & recipient & Hu & Hv & Hfresh & Hrow).
  eexists. split; [exact Hrow|].
  cbn [row_of FileRow.path new_file NewFile.path]. unfold or_null.
  destruct (sent_path env st u) as [|c p]; cbn; [left; reflexivity|].
  right. eexists. split; [reflexivity | discriminate].
Qed.

(** C6. After a successful submission the row created under the fresh
    identifier has its kind derived from the presence of a file: without a
    file (the message is then not empty) the path is null and the kind is
    [message_only]; with a file the path is not null and the kind is
    [file_and_message], whatever the message. *)
Theorem handleSubmit_kind env st b :
  error (ui (submitted env st b)) = None →
  ∃ row,
    files b !! uuid env = None
    ∧ files (backend (submitted env st b)) !! uuid env = Some row
    ∧ (file st = None →
       Js.trim (message st) ≠ []
       ∧ FileRow.path row = None ∧ FileRow.type row = message_only)
    ∧ (is_Some (file st) →
       is_Some (FileRow.path row) ∧ FileRow.type row = file_and_message).
Proof.
  intros Hok.
  destruct (submitted_row env st b Hok)
    as (u & expiry & recipient & Hu & Hv & Hfresh & Hrow).
  eexists. split; [exact Hfresh|]. split; [exact Hrow|].
  cbn [row_of FileRow.path FileRow.type new_file NewFile.path NewFile.type].
  unfold sent_path. split.
  - intros Hnone. rewrite Hnone in *. repeat split.
    apply nothing_to_send_false in Hv as [[? ?]|?]; [discriminate | assumption].
  - intros [f Hf]. rewrite Hf. split.
    + unfold or_null. rewrite filePath_of_truthy. eauto.
    + rewrite bool_decide_eq_true_2; eauto.
Qed.

(** Alice sends [notes.txt] with a blank message. *)
Lemma handleSubmit_kind_witness :
  ∃ row,
    files Sample.empty !! uuid Sample.env = None
    ∧ files (backend (submitted Sample.env
                        (Sample.form (Some Sample.notes) "  " 7) Sample.empty))
        !! uuid Sample.env = Some row
    ∧ FileRow.type row = file_and_message.
Proof.
  destruct (handleSubmit_kind Sample.env
              (Sample.form (Some Sample.notes) "  " 7) Sample.empty)
    as (row & Hfresh & Hrow & _ & Hfile).
  - vm_compute. reflexivity.
  - exists row. repeat split; try assumption.
    apply Hfile. cbn. eauto.
Defined.

(** C7, as amended. After a successful submission the created row has
    [download_count] 0, as sent by the client. The client sends no
    [view_count]: the row has the default of that column. *)
Theorem handleSubmit_counters env st b :
  error (ui (submitted env st b)) = None →
  ∃ row,
    files b !! uuid env = None
    ∧ files (backend (submitted env st b)) !! uuid env = Some row
    ∧ FileRow.download_count row = Some 0
    ∧ FileRow.view_count row = view_count_default env.
Proof.
  intros Hok.
  destruct (submitted_row env st b Hok)
    as (u & expiry & recipient & Hu & Hv & Hfresh & Hrow).
  eexists. split; [exact Hfresh|]. split; [exact Hrow|].
  split; reflexivity.
Qed.

Lemma handleSubmit_counters_witness :
  ∃ row,
    files (backend (submitted Sample.env
                      (Sample.form None "hello" 0) Sample.empty))
      !! uuid Sample.env = Some row
    ∧ FileRow.download_count row = Some 0.
Proof.
  destruct (handleSubmit_counters Sample.env
              (Sample.form None "hello" 0) Sample.empty)
    as (row & _ & Hrow & Hdl & _).
  - vm_compute. reflexivity.
  - exists row. split; assumption.
Defined.

(** C7 as stated fails: on a table whose [view_count] column has no
    default, the created row has no [view_count] at all. *)
Lemma handleSubmit_view_count_unset :
  ¬ (∀ env st b row,
       error (ui (submitted env st b)) = None →
       files (backend (submitted env st b)) !! uuid env = Some row →
       FileRow.download_count row = Some 0 ∧ FileRow.view_count row = Some 0).
Proof.
  intros H.
  destruct (H Sample.env (Sample.form None "hello" 0) Sample.empty
              (row_of Sample.env
                 (new_file (Sample.form None "hello" 0) Sample.alice EmptyString None)
                 "alice@example.org"))
    as [_ Hview].
  - vm_compute. reflexivity.
  - vm_compute. reflexivity.
  - discriminate Hview.
Qed.

(** C10. After a successful submission the message of the created row is
    the typed message without its leading and trailing white space; a
    message made of white space only is stored as the empty string, also
    when a file is attached. *)
Theorem handleSubmit_message env st b :
  error (ui (submitted env st b)) = None →
  ∃ row stored,
    files (backend (submitted env st b)) !! uuid env = Some row
    ∧ FileRow.message row = Some stored
    ∧ stored = Js.trim (message st)
    ∧ (∃ pre post,
         message st = pre ++ stored ++ post
         ∧ Forall (λ c, Js.isWhiteSpace c = true) pre
         ∧ Forall (λ c, Js.isWhiteSpace c = true) post
         ∧ (∀ c, head stored = Some c → Js.isWhiteSpace c = false)
         ∧ (∀ c, last stored = Some c → Js.isWhiteSpace c = false))
    ∧ (Forall (λ c, Js.isWhiteSpace c = true) (message st) → stored = []).
Proof.
  intros Hok.
  destruct (submitted_row env st b Hok)
    as (u & expiry & recipient & Hu & Hv & Hfresh & Hrow).
  eexists. exists (Js.trim (message st)).
  split; [exact Hrow|]. split; [reflexivity|]. split; [reflexivity|].
  split; [apply trim_spec|]. apply trim_nil_iff.
Qed.

(** Alice sends [notes.txt] with a message of two blanks: the stored message
    is empty. *)
Lemma handleSubmit_message_witness :
  ∃ row,
    files (backend (submitted Sample.env
                      (Sample.form (Some Sample.notes) "  " 7) Sample.empty))
      !! uuid Sample.env = Some row
    ∧ FileRow.message row = Some [].
Proof.
  destruct (handleSubmit_message Sample.env
              (Sample.form (Some Sample.notes) "  " 7) Sample.empty)
    as (row & stored & Hrow & Hmsg & Hst & _ & _).
  - vm_compute. reflexivity.
  - exists row. split; [exact Hrow|]. rewrite Hmsg, Hst. reflexivity.
Defined.

(** C1. A submission without a file whose message is empty after trimming
    is rejected with the validation message and nothing else happens: no
    request is sent and the backend is unchanged. A submission with a file,
    or with a message that is not empty after trimming, passes the check and
    the handler goes on to its first request. *)
Theorem handleSubmit_validation env st b :
  (file st = None ∧ Js.trim (message st) = [] →
     handleSubmit env st (start st b)
     = (inr tt, {| ui := set_error validation_message st;
                   backend := b; calls := [] |}))
  ∧ (is_Some (file st) ∨ Js.trim (message st) ≠ [] →
     nothing_to_send (file st) (message st) = false
     ∧ ∃ rest, calls (handleSubmit env st (start st b)).2 = AuthGetUser :: rest).
Proof.
  split.
  - intros H. apply nothing_to_send_true in H.
    unfold handleSubmit. rewrite H. reflexivity.
  - intros H. apply nothing_to_send_false in H. split; [exact H|].
    unfold handleSubmit. rewrite H.
    destruct (submit_first_call env st (start st b)) as [rest Hrest].
    exists rest.
    rewrite (proj2 (try_catch_setState _ _ _)).
    exact Hrest.
Qed.

(** A blank form is rejected; a form holding only the message [hello]
    passes. *)
Lemma handleSubmit_validation_witness :
  handleSubmit Sample.env (Sample.form None "  " 7)
    (start (Sample.form None "  " 7) Sample.empty)
  = (inr tt, {| ui := set_error validation_message (Sample.form None "  " 7);
                backend := Sample.empty; calls := [] |})
  ∧ (nothing_to_send None (Js.units "hello") = false
     ∧ ∃ rest, calls (handleSubmit Sample.env (Sample.form None "hello" 7)
                        (start (Sample.form None "hello" 7) Sample.empty)).2
               = AuthGetUser :: rest).
Proof.
  split.
  - apply (proj1 (handleSubmit_validation Sample.env (Sample.form None "  " 7)
                    Sample.empty)).
    split; reflexivity.
  - apply (proj2 (handleSubmit_validation Sample.env (Sample.form None "hello" 7)
                    Sample.empty)).
    right. discriminate.
Defined.

End Submission.

(** ** The size limit of the styled form *)

Section SizeLimit.
Import FileUploadState FileUpload.

Lemma zoom_run {U V A} (get : V → U) (set : U → V → V) (m : Act U A) (s : Sys V) :
  backend (zoom get set m s).2
  = backend (m {| ui := get (ui s); backend := backend s; calls := calls s |}).2
  ∧ calls (zoom get set m s).2
    = calls (m {| ui := get (ui s); backend := backend s; calls := calls s |}).2.
Proof.
  unfold zoom. destruct (m _) as [r s']. split; reflexivity.
Qed.

(** Without a file in the form, [handleSubmit] sends no upload. *)
Lemma handleSubmit_without_file env st b :
  file st = None →
  Forall (λ c, is_upload c = false) (calls (handleSubmit env st (start st b)).2).
Proof.
  intros Hf. unfold handleSubmit.
  destruct (nothing_to_send (file st) (message st)); [constructor|].
  rewrite (proj2 (try_catch_setState _ _ _)), submit_run.
  destruct (user env) as [u|]; [|repeat constructor].
  unfold submit_as. rewrite Hf.
  unfold mbind, act_bind, mret, act_ret, eval, throw, setState, insert, request.
  cbn [start ui backend calls].
  destruct (expiry_date env st) as [e|expiry]; [repeat constructor|].
  unfold mret, act_ret. cbn [error_of ui backend calls].
  set (nf := new_file st u EmptyString expiry).
  destruct (refuses env (FilesInsert nf)); [repeat constructor|].
  destruct (files_insert env nf b); repeat constructor.
Qed.

(** C9. In the styled form, a chosen or dropped file of more than
    [50 * 1024 * 1024] bytes is refused: the form shows the size-limit
    message, holds no file, nothing is sent to the backend, and a
    submission from that state sends no upload. *)
Theorem oversized_file_rejected (formatSize : Z → string) (f : File.t)
  (u : StyledUpload.t) (b : Backend) :
  File.size f > 50 * 1024 * 1024 →
  ∃ msg,
    msg = "File size exceeds 50MB limit (" +:+ formatSize (File.size f) +:+ ")"
    ∧ StyledUpload.handleFileChange formatSize (Some f) (start u b)
      = (inr tt, start (StyledUpload.reject msg u) b)
    ∧ StyledUpload.handleDrop formatSize (Some f) (start u b)
      = (inr tt, start (StyledUpload.reject msg u) b)
    ∧ file (StyledUpload.state (StyledUpload.reject msg u)) = None
    ∧ error (StyledUpload.state (StyledUpload.reject msg u)) = Some msg
    ∧ ∀ env,
        Forall (λ c, is_upload c = false)
          (calls (StyledUpload.handleSubmit env
                    (StyledUpload.state (StyledUpload.reject msg u))
                    (start (StyledUpload.reject msg u) b)).2).
Proof.
  intros Hsize. eexists. split; [reflexivity|].
  assert (Herr : StyledUpload.size_error formatSize f
                 = Some ("File size exceeds 50MB limit ("
                         +:+ formatSize (File.size f) +:+ ")")).
  { unfold StyledUpload.size_error, StyledUpload.validateFile,
      StyledUpload.MAX_FILE_SIZE.
    rewrite bool_decide_eq_true_2 by exact Hsize. reflexivity. }
  repeat split.
  - unfold StyledUpload.handleFileChange. rewrite Herr. reflexivity.
  - unfold StyledUpload.handleDrop. rewrite Herr. reflexivity.
  - intros env. unfold StyledUpload.handleSubmit.
    rewrite (proj2 (zoom_run _ _ _ _)).
    apply (handleSubmit_without_file env _ b). reflexivity.
Qed.

(** A file of 50 MB and one byte. *)
Lemma oversized_file_rejected_witness :
  ∃ msg,
    StyledUpload.handleFileChange (λ _, "50 MB"%string) (Some Sample.huge)
      (start {| StyledUpload.state := Sample.blank;
                StyledUpload.isDragging := true |} Sample.empty)
    = (inr tt,
       start (StyledUpload.reject msg
                {| StyledUpload.state := Sample.blank;
                   StyledUpload.isDragging := true |}) Sample.empty).
Proof.
  destruct (oversized_file_rejected (λ _, "50 MB"%string) Sample.huge
              {| StyledUpload.state := Sample.blank;
                 StyledUpload.isDragging := true |} Sample.empty)
    as (msg & _ & Hchange & _).
  - reflexivity.
  - exists msg. exact Hchange.
Defined.

(** A file of exactly 50 MB is accepted. *)
Lemma file_of_50MB_accepted (formatSize : Z → string) (f : File.t)
  (u : StyledUpload.t) (b : Backend) :
  File.size f = 50 * 1024 * 1024 →
  StyledUpload.handleFileChange formatSize (Some f) (start u b)
  = (inr tt, start (StyledUpload.accept f u) b).
Proof.
  intros Hsize.
  unfold StyledUpload.handleFileChange, StyledUpload.size_error,
    StyledUpload.validateFile, StyledUpload.MAX_FILE_SIZE.
  rewrite bool_decide_eq_false_2 by lia. reflexivity.
Qed.

End SizeLimit.

(** ** Deletion *)

Section Deletion.

Lemma FileList_handleDelete_effect env file st b :
  (backend (FileList.handleDelete env file (start st b)).2,
   calls (FileList.handleDelete env file (start st b)).2)
  = delete_effect env (FileData.path file) (FileData.id file) b.
Proof.
  unfold FileList.handleDelete, delete_effect.
  rewrite (proj1 (finally_run _ _ _)), (proj1 (proj2 (finally_run _ _ _))).
  rewrite (proj1 (try_catch_setState _ _ _)), (proj2 (try_catch_setState _ _ _)).
  unfold mbind, act_bind, mret, act_ret, throw, setState, remove,
    delete_eq_id, request.
  cbn [start ui backend calls].
  destruct (truthy_path (FileData.path file)).
  - destruct (refuses env (StorageRemove _)); [reflexivity|].
    cbn [error_of ui backend calls app].
    destruct (refuses env (FilesDelete _)); reflexivity.
  - cbn [error_of ui backend calls app].
    destruct (refuses env (FilesDelete _)); reflexivity.
Qed.

Lemma DashboardList_handleDelete_effect env file st b :
  DashboardList.fileToDelete st = Some file →
  backend (DashboardList.handleDelete env st (start st b)).2
  = (delete_effect env (FileData.path file) (FileData.id file) b).1
  ∧ ∃ rest,
      calls (DashboardList.handleDelete env st (start st b)).2
      = (delete_effect env (FileData.path file) (FileData.id file) b).2 ++ rest
      ∧ (rest = [] ∨ rest = [Refresh]).
Proof.
  intros Hfile. unfold DashboardList.handleDelete, delete_effect. rewrite Hfile.
  rewrite setState_bind.
  rewrite (proj1 (finally_run _ _ _)), (proj1 (proj2 (finally_run _ _ _))).
  rewrite (proj1 (try_catch_setState _ (λ _, _) _)),
    (proj2 (try_catch_setState _ (λ _, _) _)).
  unfold mbind, act_bind, mret, act_ret, throw, setState, remove,
    delete_eq_id, request, refresh.
  cbn [start ui backend calls].
  destruct (truthy_path (FileData.path file)).
  - destruct (refuses env (StorageRemove _));
      [split; [reflexivity | exists []; split; [reflexivity | left; reflexivity]]|].
    cbn [error_of ui backend calls app].
    destruct (refuses env (FilesDelete _)).
    + split; [reflexivity | exists []; split; [reflexivity | left; reflexivity]].
    + split; [reflexivity | exists [Refresh]; split; [reflexivity | right; reflexivity]].
  - cbn [error_of ui backend calls app].
    destruct (refuses env (FilesDelete _)).
    + split; [reflexivity | exists []; split; [reflexivity | left; reflexivity]].
    + split; [reflexivity | exists [Refresh]; split; [reflexivity | right; reflexivity]].
Qed.

(** The run of the list's [handleDelete] when the bucket refuses the removal. *)
Lemma FileList_handleDelete_refused env file st b e :
  truthy_path (FileData.path file) = true →
  refuses env (StorageRemove [default EmptyString (FileData.path file)]) = Some e →
  FileList.handleDelete env file (start st b)
  = (inr tt,
     {| ui := FileList.setDeleting None
                (FileList.setError (Some (Js.message_or e "Error deleting file"))
                   (FileList.setError None
                      (FileList.setDeleting (Some (FileData.id file)) st)));
        backend := b;
        calls := [StorageRemove [default EmptyString (FileData.path file)]] |}).
Proof.
  intros Hp Hr. unfold FileList.handleDelete, finally, try_catch.
  unfold mbind, act_bind, mret, act_ret, throw, setState, remove, request.
  cbn [start ui backend calls]. rewrite Hp, Hr. reflexivity.
Qed.

Lemma DashboardList_handleDelete_refused env file st b e :
  DashboardList.fileToDelete st = Some file →
  truthy_path (FileData.path file) = true →
  refuses env (StorageRemove [default EmptyString (FileData.path file)]) = Some e →
  DashboardList.handleDelete env st (start st b)
  = (inr tt,
     {| ui := DashboardList.setIsDeleting false
                (DashboardList.setError (Some "Failed to delete file")
                   (DashboardList.setIsDeleting true st));
        backend := b;
        calls := [StorageRemove [default EmptyString (FileData.path file)]] |}).
Proof.
  intros Hf Hp Hr. unfold DashboardList.handleDelete, finally, try_catch.
  rewrite Hf.
  unfold mbind, act_bind, mret, act_ret, throw, setState, remove, request.
  cbn [start ui backend calls]. rewrite Hp, Hr. reflexivity.
Qed.

(** The effect of a deletion on an entry with a path that is not empty. *)
Lemma delete_effect_with_path env p i b :
  p ≠ EmptyString →
  (∀ e, refuses env (StorageRemove [p]) = Some e →
     delete_effect env (Some p) i b = (b, [StorageRemove [p]]))
  ∧ (refuses env (StorageRemove [p]) = None →
     (delete_effect env (Some p) i b).2 = [StorageRemove [p]; FilesDelete i]
     ∧ objects (delete_effect env (Some p) i b).1 !! p = None).
Proof.
  intros Hp. unfold delete_effect.
  assert (truthy_path (Some p) = true) as ->.
  { destruct p; [congruence | reflexivity]. }
  cbn [default from_option id].
  split.
  - intros e ->. reflexivity.
  - intros ->.
    assert (Hgone : objects (files_delete env i (storage_remove [p] b)) !! p = None
                    ∧ objects (storage_remove [p] b) !! p = None).
    { unfold files_delete, storage_remove. cbn.
      repeat case_match; cbn; rewrite lookup_delete_eq; split; reflexivity. }
    destruct (refuses env (FilesDelete i));
      (split; [reflexivity | apply Hgone]).
Qed.

(** The requests of a deletion on an entry whose path is [null] or empty. *)
Lemma delete_effect_without_path env path i b :
  path = None ∨ path = Some EmptyString →
  (delete_effect env path i b).2 = [FilesDelete i].
Proof.
  intros [-> | ->]; unfold delete_effect; cbn;
    destruct (refuses env (FilesDelete i)); reflexivity.
Qed.

(** C3. Deleting an entry, in the list as in the dashboard. When the path
    of the entry is neither [null] nor empty, the removal of the object is
    the first request. If it is refused, it is the only request: the
    deletion of the row is not sent, the backend is unchanged, so the row
    stays, and the failure is shown. If it is accepted, the deletion of the
    row is the second request, followed by at most a refresh, and the
    object is gone. When the path is [null] or the empty string, no removal
    is sent: the deletion of the row is the first request. *)
Theorem handleDelete_blob_first env file b :
  (∀ p, FileData.path file = Some p → p ≠ EmptyString →
     (∀ st,
        removal_first env p (FileData.id file) b
          (FileList.handleDelete env file (start st b)).2
          (λ e, FileList.error
                  (ui (FileList.handleDelete env file (start st b)).2)
                = Some (Js.message_or e "Error deleting file")))
     ∧ (∀ st, DashboardList.fileToDelete st = Some file →
        removal_first env p (FileData.id file) b
          (DashboardList.handleDelete env st (start st b)).2
          (λ _, DashboardList.error
                  (ui (DashboardList.handleDelete env st (start st b)).2)
                = Some "Failed to delete file"%string)))
  ∧ (FileData.path file = None ∨ FileData.path file = Some EmptyString →
     (∀ st, calls (FileList.handleDelete env file (start st b)).2
            = [FilesDelete (FileData.id file)])
     ∧ (∀ st, DashboardList.fileToDelete st = Some file →
          deletion_only (FileData.id file)
            (DashboardList.handleDelete env st (start st b)).2)).
Proof.
  split.
  - intros p Hpath Hp.
    assert (Htruthy : truthy_path (FileData.path file) = true).
    { rewrite Hpath. destruct p; [congruence | reflexivity]. }
    destruct (delete_effect_with_path env p (FileData.id file) b Hp)
      as [_ Haccepted].
    split.
    + intros st.
      pose proof (FileList_handleDelete_effect env file st b) as Heff.
      rewrite Hpath in Heff.
      split.
      * intros e He.
        rewrite (FileList_handleDelete_refused env file st b e Htruthy)
          by (rewrite Hpath; exact He).
        rewrite Hpath. cbn. auto.
      * intros Hok. destruct (Haccepted Hok) as [Hcalls Hgone].
        split.
        -- exists []. split; [|left; reflexivity].
           rewrite <- Hcalls, <- Heff. reflexivity.
        -- rewrite <- Heff in Hgone. exact Hgone.
    + intros st Hst.
      destruct (DashboardList_handleDelete_effect env file st b Hst)
        as (Hb & rest & Hc & Hrest).
      rewrite Hpath in Hb, Hc.
      split.
      * intros e He.
        rewrite (DashboardList_handleDelete_refused env file st b e Hst Htruthy)
          by (rewrite Hpath; exact He).
        rewrite Hpath. cbn. auto.
      * intros Hok. destruct (Haccepted Hok) as [Hcalls Hgone].
        split.
        -- exists rest. split; [|exact Hrest].
           rewrite Hc, Hcalls. reflexivity.
        -- rewrite Hb. exact Hgone.
  - intros Hpath. split.
    + intros st.
      pose proof (FileList_handleDelete_effect env file st b) as Heff.
      apply (f_equal snd) in Heff. cbn [snd] in Heff. rewrite Heff.
      apply delete_effect_without_path. exact Hpath.
    + intros st Hst.
      destruct (DashboardList_handleDelete_effect env file st b Hst)
        as (_ & rest & Hc & Hrest).
      exists rest. split; [|exact Hrest].
      rewrite Hc, (delete_effect_without_path env _ _ b Hpath). reflexivity.
Qed.

(** Alice deletes her file while the bucket refuses removals: the removal
    is the only request and the row stays. *)
Lemma handleDelete_blob_first_witness :
  calls (FileList.handleDelete (Sample.with_refusal Sample.env Sample.no_remove)
           (Sample.entry Sample.alices_file)
           (start (Sample.listing [Sample.alices_file]) Sample.stored)).2
  = [StorageRemove ["alice/notes.txt"%string]]
  ∧ backend (FileList.handleDelete
               (Sample.with_refusal Sample.env Sample.no_remove)
               (Sample.entry Sample.alices_file)
               (start (Sample.listing [Sample.alices_file]) Sample.stored)).2
    = Sample.stored.
Proof.
  destruct (proj1 (handleDelete_blob_first
                     (Sample.with_refusal Sample.env Sample.no_remove)
                     (Sample.entry Sample.alices_file) Sample.stored)
              "alice/notes.txt"%string eq_refl ltac:(discriminate))
    as [Hlist _].
  destruct (Hlist (Sample.listing [Sample.alices_file])) as [Hrefused _].
  destruct (Hrefused Sample.unavailable eq_refl) as (Hcalls & Hbackend & _).
  split; assumption.
Defined.

(** C3 as stated fails: a path that is not [null] but empty is falsy, so
    that for Alice's row with the empty path the row is deleted without any
    removal being sent. *)
Lemma handleDelete_blob_first_empty_path :
  ¬ (∀ env file st b p,
       FileData.path file = Some p →
       removal_first env p (FileData.id file) b
         (FileList.handleDelete env file (start st b)).2
         (λ e, FileList.error
                 (ui (FileList.handleDelete env file (start st b)).2)
               = Some (Js.message_or e "Error deleting file"))).
Proof.
  intros H.
  destruct (H Sample.env (Sample.entry Sample.empty_path)
              (Sample.listing [Sample.empty_path]) Sample.stored_empty_path
              EmptyString eq_refl) as [_ Haccepted].
  destruct (Haccepted eq_refl) as [(rest & Hcalls & _) _].
  vm_compute in Hcalls. discriminate Hcalls.
Qed.

(** *** Deleting somebody else's entry *)

Lemma delete_effect_not_owner env path i b r :
  files b !! i = Some r → owned env r = false →
  files (delete_effect env path i b).1 = files b.
Proof.
  intros Hr Hown.
  assert (Hskip : ∀ b', files b' = files b → files (files_delete env i b') = files b).
  { intros b' Hb'. unfold files_delete. rewrite Hb', Hr, Hown. exact Hb'. }
  unfold delete_effect.
  repeat case_match; cbn [fst]; try reflexivity; apply Hskip; reflexivity.
Qed.

(** The run of the list's [handleDelete] when nothing is refused. *)
Lemma FileList_handleDelete_done env file st b :
  (∀ c, refuses env c = None) →
  ui (FileList.handleDelete env file (start st b)).2
  = FileList.setDeleting None
      (FileList.setDeleteSuccess
         (Some (FileList.dquote +:+ FileData.name file +:+ FileList.dquote
                +:+ " has been deleted"))
         (FileList.setFiles (FileList.without (FileData.id file))
            (FileList.setError None
               (FileList.setDeleting (Some (FileData.id file)) st)))).
Proof.
  intros Hnone. unfold FileList.handleDelete.
  rewrite (proj2 (proj2 (finally_run _ _ _))). f_equal.
  unfold try_catch, mbind, act_bind, mret, act_ret, throw, setState, remove,
    delete_eq_id, request.
  cbn [start ui backend calls]. rewrite !Hnone.
  destruct (truthy_path (FileData.path file)); reflexivity.
Qed.

(** C8, as amended. When the session principal does not own the row of the
    entry, a deletion leaves the [files] table as it was, in the list as in
    the dashboard: the row-level policy makes the record store skip the row.
    The handler checks no ownership and raises no authorization error: when
    no request is refused the list reports the deletion as done. *)
Theorem handleDelete_not_owner env file b r :
  files b !! FileData.id file = Some r → owned env r = false →
  (∀ st,
     files (backend (FileList.handleDelete env file (start st b)).2) = files b
     ∧ ((∀ c, refuses env c = None) →
        FileList.error (ui (FileList.handleDelete env file (start st b)).2) = None
        ∧ FileList.deleteSuccess
            (ui (FileList.handleDelete env file (start st b)).2)
          = Some (FileList.dquote +:+ FileData.name file +:+ FileList.dquote
                  +:+ " has been deleted")))
  ∧ (∀ st, DashboardList.fileToDelete st = Some file →
       files (backend (DashboardList.handleDelete env st (start st b)).2)
       = files b).
Proof.
  intros Hr Hown. split.
  - intros st. split.
    + pose proof (FileList_handleDelete_effect env file st b) as Heff.
      apply (f_equal fst) in Heff. cbn [fst] in Heff. rewrite Heff.
      apply (delete_effect_not_owner env _ _ b r); assumption.
    + intros Hnone. rewrite (FileList_handleDelete_done env file st b Hnone).
      split; reflexivity.
  - intros st Hst.
    destruct (DashboardList_handleDelete_effect env file st b Hst) as [-> _].
    apply (delete_effect_not_owner env _ _ b r); assumption.
Qed.

(** Alice asks for the deletion of Bob's message. *)
Lemma handleDelete_not_owner_witness :
  files (backend (FileList.handleDelete Sample.env
                    (Sample.entry Sample.bobs_message)
                    (start (Sample.listing [Sample.bobs_message])
                       Sample.stored)).2)
  = files Sample.stored.
Proof.
  destruct (handleDelete_not_owner Sample.env (Sample.entry Sample.bobs_message)
              Sample.stored Sample.bobs_message) as [Hlist _].
  - reflexivity.
  - reflexivity.
  - apply Hlist.
Defined.

(** C8 as stated fails: Alice's request to delete Bob's message ends
    without any error. *)
Lemma handleDelete_not_owner_no_error :
  ¬ (∀ env file st b r,
       files b !! FileData.id file = Some r → owned env r = false →
       is_Some (FileList.error
                  (ui (FileList.handleDelete env file (start st b)).2))).
Proof.
  intros H.
  destruct (H Sample.env (Sample.entry Sample.bobs_message)
              (Sample.listing [Sample.bobs_message]) Sample.stored
              Sample.bobs_message eq_refl eq_refl) as [e He].
  vm_compute in He. discriminate He.
Qed.

End Deletion.

(** ** Share links *)

Section ShareLinks.

(** The listing is empty when the search selects no object of the folder. *)
Lemma storage_list_nil env folder search b :
  (∀ k f, objects b !! k = Some f → listed env folder search (k, f) = false) →
  storage_list env folder search b = [].
Proof.
  intros Hnone. unfold storage_list.
  assert (List.filter (listed env folder search) (map_to_list (objects b)) = [])
    as ->; [|reflexivity].
  assert (H : ∀ kf, kf ∈ map_to_list (objects b) →
                    listed env folder search kf = false).
  { intros [k f] Hin. apply elem_of_map_to_list in Hin. eauto. }
  induction (map_to_list (objects b)) as [|kf l IH]; [reflexivity|].
  cbn. rewrite (H kf) by (left). apply IH.
  intros kf' Hin. apply H. right. exact Hin.
Qed.

(** The list's [generateShareableLink] on an entry whose object the lookup
    does not find: the handler fails with the not-found error after the
    lookup alone; no URL is requested or copied and no counter is written. *)
Lemma generateShareableLink_not_found env fs fileId p st b :
  p ≠ EmptyString →
  refuses env (StorageList (default EmptyString (Js.split "/" p !! 0%nat))
                 (Js.split "/" p !! 1%nat)) = None →
  (∀ k f, objects b !! k = Some f →
     listed env (default EmptyString (Js.split "/" p !! 0%nat))
       (Js.split "/" p !! 1%nat) (k, f) = false) →
  FileList.generateShareableLink env fs fileId (Some p) (start st b)
  = (inr tt,
     {| ui := FileList.setDeleting None
                (FileList.setError (Some "File not found in storage")
                   (FileList.setDeleting (Some fileId) st));
        backend := b;
        calls := [StorageList (default EmptyString (Js.split "/" p !! 0%nat))
                    (Js.split "/" p !! 1%nat)] |}).
Proof.
  intros Hp Hr Hmiss. unfold FileList.generateShareableLink.
  assert (truthy_path (Some p) = true) as ->.
  { destruct p; [congruence | reflexivity]. }
  cbn [negb default from_option id].
  unfold finally, try_catch, FileList.share, list_objects, request.
  unfold mbind, act_bind, mret, act_ret, throw, setState.
  cbn [start ui backend calls]. rewrite Hr.
  rewrite (storage_list_nil env _ _ b Hmiss). reflexivity.
Qed.

(** The dashboard's [handleShareLink] never looks the object up. *)
Lemma handleShareLink_no_lookup env file st b :
  Forall (λ c, is_lookup c = false)
    (calls (DashboardList.handleShareLink env file (start st b)).2).
Proof.
  unfold DashboardList.handleShareLink.
  rewrite (proj2 (try_catch_setState _ (λ _, _) _)).
  destruct (truthy_path (FileData.path file)); [|constructor].
  cbn [negb].
  unfold await, createSignedUrl, clipboard_writeText, update_download_count, request.
  unfold mbind, act_bind, mret, act_ret, throw, setState.
  cbn [start ui backend calls].
  destruct (refuses env (StorageCreateSignedUrl _ _)); [repeat constructor|].
  cbn [ui backend calls].
  destruct (signedUrl env _) as [url|]; [|repeat constructor].
  destruct (refuses env (ClipboardWriteText url)); [repeat constructor|].
  cbn [ui backend calls].
  destruct (refuses env (FilesUpdateDownloadCount _ _)); repeat constructor.
Qed.

(** C4, on the dashboard. Alice shares an entry whose object is no longer
    in the bucket. [handleShareLink] asks for a signed URL without any
    lookup. If the signer issues one, the link is copied and the download
    count of the row goes from 2 to 3; if the signer refuses, the generic
    message is shown. The list's [generateShareableLink] on the same input
    stops after its lookup with the not-found error and writes nothing. *)
Theorem handleShareLink_missing_object :
  objects Sample.stored_lost !! "alice/gone.txt"%string = None
  ∧ calls (DashboardList.handleShareLink Sample.env
             (Sample.entry Sample.lost_file)
             (start (Sample.dashboard [Sample.lost_file] None)
                Sample.stored_lost)).2
    = [StorageCreateSignedUrl "alice/gone.txt" 3600;
       ClipboardWriteText "https://storage.example/sign/alice/gone.txt";
       FilesUpdateDownloadCount "row-d" 3]
  ∧ FileRow.download_count
      <$> files (backend (DashboardList.handleShareLink Sample.env
                            (Sample.entry Sample.lost_file)
                            (start (Sample.dashboard [Sample.lost_file] None)
                               Sample.stored_lost)).2) !! "row-d"%string
    = Some (Some 3)
  ∧ DashboardList.error
      (ui (DashboardList.handleShareLink Sample.env
             (Sample.entry Sample.lost_file)
             (start (Sample.dashboard [Sample.lost_file] None)
                Sample.stored_lost)).2) = None
  ∧ (DashboardList.handleShareLink
       (Sample.with_refusal Sample.env Sample.no_signature)
       (Sample.entry Sample.lost_file)
       (start (Sample.dashboard [Sample.lost_file] None) Sample.stored_lost)).2
    = {| ui := DashboardList.setError (Some "Failed to generate share link")
                 (Sample.dashboard [Sample.lost_file] None);
         backend := Sample.stored_lost;
         calls := [StorageCreateSignedUrl "alice/gone.txt" 3600] |}
  ∧ (FileList.generateShareableLink Sample.env
       [Sample.entry Sample.lost_file] "row-d" (Some "alice/gone.txt"%string)
       (start (Sample.listing [Sample.lost_file]) Sample.stored_lost)).2
    = {| ui := FileList.setError (Some "File not found in storage")
                 (Sample.listing [Sample.lost_file]);
         backend := Sample.stored_lost;
         calls := [StorageList "alice" (Some "gone.txt"%string)] |}.
Proof.
  repeat split; vm_compute; reflexivity.
Qed.

End ShareLinks.

(** ** Dashboard statistics *)

Section Statistics.

Lemma gte_spec (column : option Z) (v : Z) :
  gte column v = true ↔ ∃ x, column = Some x ∧ v ≤ x.
Proof.
  unfold gte. destruct column as [x|].
  - rewrite bool_decide_eq_true. split.
    + intros H. exists x. split; [reflexivity | exact H].
    + intros (y & [= <-] & H). exact H.
  - split; [discriminate|]. intros (x & [=] & _).
Qed.

(** A row without expiry date never passes the filter of the second query. *)
Lemma gte_null (v : Z) : gte None v = false.
Proof. reflexivity. Qed.

(** C5, on the dashboard statistics. Alice owns two entries: a file that
    expires in the future and a message that never expires. The count of
    active transfers is 1: the entry without expiry date is left out. *)
Theorem fetchDashboardStats_never_expiring :
  FileRow.expiry_date Sample.alices_message = None
  ∧ Dashboard.stats
      (ui (Dashboard.fetchDashboardStats Sample.env 1700000000000
             (start {| Dashboard.stats :=
                         {| Dashboard.totalFiles := 0;
                            Dashboard.activeTransfers := 0;
                            Dashboard.totalDownloads := 0 |};
                       Dashboard.loading := true |}
                Sample.stored)).2)
    = {| Dashboard.totalFiles := 2;
         Dashboard.activeTransfers := 1;
         Dashboard.totalDownloads := 4 |}.
Proof.
  split; vm_compute; reflexivity.
Qed.

End Statistics.

(** ** More on the submission form *)

Section SubmissionPaths.
Import FileUploadState FileUpload.

(** X1. When nobody is signed in, a submission that passes the validation
    asks for the user, shows [User not authenticated] and does nothing
    else: no upload, no insert, the backend is unchanged. *)
Theorem handleSubmit_unauthenticated env st b :
  nothing_to_send (file st) (message st) = false → user env = None →
  handleSubmit env st (start st b)
  = (inr tt,
     {| ui := set_failed "User not authenticated" (set_uploading st);
        backend := b;
        calls := [AuthGetUser] |}).
Proof.
  intros Hv Hu. unfold handleSubmit. rewrite Hv.
  unfold try_catch. rewrite submit_run, Hu. reflexivity.
Qed.

Lemma handleSubmit_unauthenticated_witness :
  backend (handleSubmit
             {| user := None; refuses := refuses Sample.env;
                violation := violation Sample.env;
                random36 := random36 Sample.env;
                now_name := now_name Sample.env;
                now_expiry := now_expiry Sample.env;
                uuid := uuid Sample.env; created := created Sample.env;
                view_count_default := None;
                signedUrl := signedUrl Sample.env;
                search_hit := search_hit Sample.env |}
             (Sample.form (Some Sample.notes) "hello" 7)
             (start (Sample.form (Some Sample.notes) "hello" 7) Sample.stored)).2
  = Sample.stored.
Proof.
  rewrite handleSubmit_unauthenticated; reflexivity.
Defined.

(** The run of [handleSubmit] when the upload returns the error [e]. *)
Lemma handleSubmit_upload_failed_run env st b f u e :
  file st = Some f → user env = Some u →
  upload_error env (filePath_of env u f) f b = Some e →
  handleSubmit env st (start st b)
  = (inr tt,
     {| ui := set_failed (Js.message_or e "Error sending. Please try again.")
                (set_uploading st);
        backend := b;
        calls := [AuthGetUser; StorageUpload (filePath_of env u f) f] |}).
Proof.
  intros Hf Hu He. unfold handleSubmit.
  assert (nothing_to_send (file st) (message st) = false) as ->.
  { apply nothing_to_send_false. left. rewrite Hf. eauto. }
  unfold try_catch. rewrite submit_run, Hu. unfold submit_as. rewrite Hf.
  unfold upload_error in He.
  unfold mbind, act_bind, mret, act_ret, throw, setState, upload, request.
  cbn [start ui backend calls app]. cbn zeta.
  destruct (refuses env (StorageUpload (filePath_of env u f) f)) as [e'|].
  - injection He as ->. reflexivity.
  - destruct (storage_upload env (filePath_of env u f) f b) as [e'|b'];
      [|discriminate].
    injection He as ->. reflexivity.
Qed.

(** X2. When the upload of the file returns an error, whatever its cause,
    [handleSubmit] shows it and stops: the backend is unchanged and neither
    an insert nor a removal is sent. *)
Theorem handleSubmit_upload_failed env st b f u e :
  file st = Some f → user env = Some u →
  upload_error env (filePath_of env u f) f b = Some e →
  backend (handleSubmit env st (start st b)).2 = b
  ∧ calls (handleSubmit env st (start st b)).2
    = [AuthGetUser; StorageUpload (filePath_of env u f) f]
  ∧ error (ui (handleSubmit env st (start st b)).2)
    = Some (Js.message_or e "Error sending. Please try again.")
  ∧ uploading (ui (handleSubmit env st (start st b)).2) = false.
Proof.
  intros Hf Hu He.
  rewrite (handleSubmit_upload_failed_run env st b f u e Hf Hu He).
  repeat split.
Qed.

(** The bucket is down while Alice sends [notes.txt]. *)
Lemma handleSubmit_upload_failed_witness :
  calls (handleSubmit
           (Sample.with_refusal Sample.env
              (λ c, match c with
                    | StorageUpload _ _ => Some Sample.unavailable
                    | _ => None
                    end))
           (Sample.form (Some Sample.notes) "hello" 7)
           (start (Sample.form (Some Sample.notes) "hello" 7) Sample.empty)).2
  = [AuthGetUser; StorageUpload "alice/k3x9_1700000000000.txt" Sample.notes].
Proof.
  exact (proj1 (proj2 (handleSubmit_upload_failed
                         (Sample.with_refusal Sample.env
                            (λ c, match c with
                                  | StorageUpload _ _ => Some Sample.unavailable
                                  | _ => None
                                  end))
                         (Sample.form (Some Sample.notes) "hello" 7)
                         Sample.empty Sample.notes Sample.alice
                         Sample.unavailable eq_refl eq_refl eq_refl))).
Defined.

(** X3. The upload is made with [upsert: false]: when an object already
    sits at the generated path it is not overwritten; the submission fails
    after the upload request and the backend is unchanged. *)
Theorem handleSubmit_path_taken env st b f u g :
  file st = Some f → user env = Some u →
  refuses env (StorageUpload (filePath_of env u f) f) = None →
  objects b !! filePath_of env u f = Some g →
  backend (handleSubmit env st (start st b)).2 = b
  ∧ calls (handleSubmit env st (start st b)).2
    = [AuthGetUser; StorageUpload (filePath_of env u f) f]
  ∧ is_Some (error (ui (handleSubmit env st (start st b)).2)).
Proof.
  intros Hf Hu Hr Hg.
  assert (He : upload_error env (filePath_of env u f) f b
               = Some (violation env "Duplicate")).
  { unfold upload_error, storage_upload. rewrite Hr, Hg. reflexivity. }
  rewrite (handleSubmit_upload_failed_run env st b f u _ Hf Hu He).
  cbn. eauto.
Qed.

Lemma handleSubmit_path_taken_witness :
  backend (handleSubmit Sample.env (Sample.form (Some Sample.notes) "again" 7)
             (start (Sample.form (Some Sample.notes) "again" 7)
                (uploaded "alice/k3x9_1700000000000.txt" Sample.huge
                   Sample.empty))).2
  = uploaded "alice/k3x9_1700000000000.txt" Sample.huge Sample.empty.
Proof.
  exact (proj1 (handleSubmit_path_taken Sample.env
                  (Sample.form (Some Sample.notes) "again" 7)
                  (uploaded "alice/k3x9_1700000000000.txt" Sample.huge
                     Sample.empty)
                  Sample.notes Sample.alice Sample.huge
                  eq_refl eq_refl eq_refl eq_refl)).
Defined.

(** What a successful submission leaves behind. *)
Lemma submitted_inv env st b :
  error (ui (submitted env st b)) = None →
  ∃ u expiry recipient,
    user env = Some u
    ∧ expiry_date env st = inr expiry
    ∧ finalRecipientEmail (recipientEmail st) u = Some recipient
    ∧ files (backend (submitted env st b)) !! uuid env
      = Some (row_of env (new_file st u (sent_path env st u) expiry) recipient)
    ∧ objects (backend (submitted env st b))
      = match file st with
        | Some f => <[sent_path env st u := f]> (objects b)
        | None => objects b
        end
    ∧ ui (submitted env st b) = set_done (set_uploading st).
Proof.
  intros Hok. unfold submitted in *.
  destruct (handleSubmit env st (start st b)) as [r s'] eqn:Hrun.
  destruct (handleSubmit_success_inv env st b r s' Hrun Hok)
    as (u & expiry & recipient & Hu & Hx & Hrec & _ & _ & Hfiles & Hobj & Hui).
  exists u, expiry, recipient. cbn [snd].
  repeat split; try assumption.
  rewrite Hfiles. apply lookup_insert_eq.
Qed.

(** X4. The expiry date of the row created by a successful submission:
    none when [expiryDays] is 0, and otherwise the time of the submission
    plus [expiryDays] days of 86 400 000 ms, a valid time value. *)
Theorem handleSubmit_expiry env st b :
  error (ui (submitted env st b)) = None →
  ∃ row,
    files (backend (submitted env st b)) !! uuid env = Some row
    ∧ (expiryDays st = 0 → FileRow.expiry_date row = None)
    ∧ (expiryDays st ≠ 0 →
       FileRow.expiry_date row
       = Some (now_expiry env + expiryDays st * 86400000)
       ∧ Z.abs (now_expiry env + expiryDays st * 86400000) ≤ 8640000000000000).
Proof.
  intros Hok.
  destruct (submitted_inv env st b Hok)
    as (u & expiry & recipient & _ & Hx & _ & Hrow & _).
  eexists. split; [exact Hrow|].
  cbn [row_of FileRow.expiry_date new_file NewFile.expiry_date].
  unfold expiry_date, toISOString in Hx.
  replace (now_expiry env + expiryDays st * 24 * 60 * 60 * 1000)
    with (now_expiry env + expiryDays st * 86400000) in Hx by lia.
  split.
  - intros Hzero. rewrite bool_decide_eq_false_2 in Hx by lia.
    injection Hx as <-. reflexivity.
  - intros Hdays. rewrite bool_decide_eq_true_2 in Hx by exact Hdays.
    case_bool_decide as Hrange; [|discriminate].
    injection Hx as <-. split; [reflexivity | exact Hrange].
Qed.

(** Alice sends a message that expires after a week. *)
Lemma handleSubmit_expiry_witness :
  ∃ row,
    files (backend (submitted Sample.env (Sample.form None "hello" 7)
                      Sample.empty)) !! uuid Sample.env = Some row
    ∧ FileRow.expiry_date row = Some 1700604800500.
Proof.
  destruct (handleSubmit_expiry Sample.env (Sample.form None "hello" 7)
              Sample.empty eq_refl) as (row & Hrow & _ & Hdays).
  exists row. split; [exact Hrow|].
  destruct Hdays as [-> _]; [discriminate | reflexivity].
Defined.

(** X5. The row created by a successful submission belongs to the signed-in
    user, who can therefore see and delete it; its recipient is the address
    typed in the form or, when that is empty, the address of the user. *)
Theorem handleSubmit_owner_recipient env st b :
  error (ui (submitted env st b)) = None →
  ∃ u row,
    user env = Some u
    ∧ files (backend (submitted env st b)) !! uuid env = Some row
    ∧ FileRow.user_id row = User.id u
    ∧ owned env row = true
    ∧ (recipientEmail st ≠ EmptyString →
       FileRow.recipient_email row = recipientEmail st)
    ∧ (recipientEmail st = EmptyString →
       User.email u = Some (FileRow.recipient_email row)).
Proof.
  intros Hok.
  destruct (submitted_inv env st b Hok)
    as (u & expiry & recipient & Hu & _ & Hrec & Hrow & _).
  exists u. eexists. split; [exact Hu|]. split; [exact Hrow|].
  cbn [row_of FileRow.user_id FileRow.recipient_email new_file NewFile.user_id].
  unfold finalRecipientEmail in Hrec. repeat split.
  - unfold owned, uid. cbn. rewrite Hu. cbn.
    apply bool_decide_eq_true_2. reflexivity.
  - intros Hne. destruct (recipientEmail st); [congruence|].
    cbn in Hrec. congruence.
  - intros Hempty. rewrite Hempty in Hrec. cbn in Hrec. exact Hrec.
Qed.

Lemma handleSubmit_owner_recipient_witness :
  ∃ row,
    files (backend (submitted Sample.env (Sample.form None "hello" 7)
                      Sample.empty)) !! uuid Sample.env = Some row
    ∧ FileRow.recipient_email row = "alice@example.org"%string.
Proof.
  destruct (handleSubmit_owner_recipient Sample.env
              (Sample.form None "hello" 7) Sample.empty eq_refl)
    as (u & row & Hu & Hrow & _ & _ & _ & Hown).
  exists row. split; [exact Hrow|].
  injection Hu as <-. specialize (Hown eq_refl).
  injection Hown as <-. reflexivity.
Defined.

(** X6. After a successful submission with a file, the path of the created
    row is the path under the user's folder at which the file is stored:
    the row never points at a missing object. The path was free before, and
    no other object of the bucket changed. Without a file the bucket is
    unchanged. *)
Theorem handleSubmit_object_stored env st b :
  error (ui (submitted env st b)) = None →
  ∃ u row,
    user env = Some u
    ∧ files (backend (submitted env st b)) !! uuid env = Some row
    ∧ (∀ f, file st = Some f →
         FileRow.path row = Some (filePath_of env u f)
         ∧ objects (backend (submitted env st b)) !! filePath_of env u f = Some f
         ∧ objects b !! filePath_of env u f = None
         ∧ ∀ q, q ≠ filePath_of env u f →
             objects (backend (submitted env st b)) !! q = objects b !! q)
    ∧ (file st = None → objects (backend (submitted env st b)) = objects b).
Proof.
  intros Hok.
  destruct (submitted_inv env st b Hok)
    as (u & expiry & recipient & Hu & _ & _ & Hrow & Hobj & _).
  exists u. eexists. split; [exact Hu|]. split; [exact Hrow|].
  cbn [row_of FileRow.path new_file NewFile.path]. unfold sent_path in *.
  split.
  - intros f Hf. rewrite Hf in *. rewrite Hobj.
    unfold or_null. rewrite filePath_of_truthy.
    split; [reflexivity|]. split; [apply lookup_insert_eq|]. split.
    + destruct (upload_error env (filePath_of env u f) f b) as [e|] eqn:He.
      * unfold submitted in Hok.
        rewrite (handleSubmit_upload_failed_run env st b f u e Hf Hu He) in Hok.
        discriminate Hok.
      * unfold upload_error, storage_upload in He.
        destruct (refuses env _); [discriminate|].
        destruct (objects b !! filePath_of env u f); [discriminate | reflexivity].
    + intros q Hq. apply lookup_insert_ne. congruence.
  - intros Hf. rewrite Hf in Hobj. exact Hobj.
Qed.

Lemma handleSubmit_object_stored_witness :
  objects (backend (submitted Sample.env
                      (Sample.form (Some Sample.notes) "see attached" 7)
                      Sample.empty)) !! "alice/k3x9_1700000000000.txt"%string
  = Some Sample.notes.
Proof.
  destruct (handleSubmit_object_stored Sample.env
              (Sample.form (Some Sample.notes) "see attached" 7)
              Sample.empty eq_refl) as (u & row & Hu & _ & Hfile & _).
  injection Hu as <-.
  exact (proj1 (proj2 (Hfile Sample.notes eq_refl))).
Defined.

(** X7. A successful submission resets the form, so that submitting again
    right away, under any circumstances, is stopped by the validation:
    nothing is sent and no second row is written. *)
Theorem handleSubmit_twice env env' st b :
  error (ui (submitted env st b)) = None →
  handleSubmit env' (ui (submitted env st b))
    (start (ui (submitted env st b)) (backend (submitted env st b)))
  = (inr tt,
     {| ui := set_error validation_message (ui (submitted env st b));
        backend := backend (submitted env st b);
        calls := [] |}).
Proof.
  intros Hok.
  destruct (submitted_inv env st b Hok) as (u & x & r & _ & _ & _ & _ & _ & Hui).
  rewrite Hui. reflexivity.
Qed.

Lemma handleSubmit_twice_witness :
  files (backend (handleSubmit Sample.env
                    (ui (submitted Sample.env
                           (Sample.form (Some Sample.notes) "hi" 7) Sample.empty))
                    (start (ui (submitted Sample.env
                                  (Sample.form (Some Sample.notes) "hi" 7)
                                  Sample.empty))
                       (backend (submitted Sample.env
                                   (Sample.form (Some Sample.notes) "hi" 7)
                                   Sample.empty)))).2)
  = files (backend (submitted Sample.env
                      (Sample.form (Some Sample.notes) "hi" 7) Sample.empty)).
Proof.
  rewrite (handleSubmit_twice Sample.env Sample.env
             (Sample.form (Some Sample.notes) "hi" 7) Sample.empty eq_refl).
  reflexivity.
Defined.

(** The run of [handleSubmit] when the expiry date cannot be rendered. *)
Lemma handleSubmit_invalid_expiry_run env st b f u e :
  file st = Some f → user env = Some u →
  refuses env (StorageUpload (filePath_of env u f) f) = None →
  objects b !! filePath_of env u f = None →
  expiry_date env st = inl e →
  handleSubmit env st (start st b)
  = (inr tt,
     {| ui := set_failed (Js.message_or e "Error sending. Please try again.")
                (set_uploading st);
        backend := uploaded (filePath_of env u f) f b;
        calls := [AuthGetUser; StorageUpload (filePath_of env u f) f] |}).
Proof.
  intros Hf Hu Hup Hfree Hx.
  unfold handleSubmit.
  assert (nothing_to_send (file st) (message st) = false) as ->.
  { apply nothing_to_send_false. left. rewrite Hf. eauto. }
  unfold try_catch. rewrite submit_run, Hu. unfold submit_as. rewrite Hf.
  cbn [start ui backend calls app].
  unfold mbind, act_bind, mret, act_ret. cbn zeta.
  rewrite upload_run by assumption.
  cbn [error_of ui backend calls].
  rewrite Hx. reflexivity.
Qed.

(** X8. If [expiryDays] is so large that the expiry date is no valid time
    value, [toISOString] throws after the file has been uploaded: an error
    is shown, no row is written, and the uploaded object stays in the
    bucket, as no removal is sent. *)
Theorem handleSubmit_invalid_expiry env st b f u :
  file st = Some f → user env = Some u →
  refuses env (StorageUpload (filePath_of env u f) f) = None →
  objects b !! filePath_of env u f = None →
  expiryDays st ≠ 0 →
  Z.abs (now_expiry env + expiryDays st * 86400000) > 8640000000000000 →
  calls (handleSubmit env st (start st b)).2
  = [AuthGetUser; StorageUpload (filePath_of env u f) f]
  ∧ files (backend (handleSubmit env st (start st b)).2) = files b
  ∧ objects (backend (handleSubmit env st (start st b)).2)
      !! filePath_of env u f = Some f
  ∧ is_Some (error (ui (handleSubmit env st (start st b)).2)).
Proof.
  intros Hf Hu Hup Hfree Hdays Hrange.
  assert (Hx : ∃ e, expiry_date env st = inl e).
  { unfold expiry_date, toISOString.
    replace (now_expiry env + expiryDays st * 24 * 60 * 60 * 1000)
      with (now_expiry env + expiryDays st * 86400000) by lia.
    rewrite bool_decide_eq_true_2 by exact Hdays.
    rewrite bool_decide_eq_false_2 by lia. eauto. }
  destruct Hx as [e Hx].
  rewrite (handleSubmit_invalid_expiry_run env st b f u e Hf Hu Hup Hfree Hx).
  cbn [snd calls backend ui uploaded files objects set_failed error].
  repeat split; [apply lookup_insert_eq | eauto].
Qed.

(** Alice asks for an expiry in a billion days. *)
Lemma handleSubmit_invalid_expiry_witness :
  objects (backend (handleSubmit Sample.env
                      (Sample.form (Some Sample.notes) "far away" 1000000000)
                      (start (Sample.form (Some Sample.notes) "far away"
                                1000000000) Sample.empty)).2)
    !! "alice/k3x9_1700000000000.txt"%string
  = Some Sample.notes
  ∧ files (backend (handleSubmit Sample.env
                      (Sample.form (Some Sample.notes) "far away" 1000000000)
                      (start (Sample.form (Some Sample.notes) "far away"
                                1000000000) Sample.empty)).2) = ∅.
Proof.
  destruct (handleSubmit_invalid_expiry Sample.env
              (Sample.form (Some Sample.notes) "far away" 1000000000)
              Sample.empty Sample.notes Sample.alice
              eq_refl eq_refl eq_refl eq_refl ltac:(discriminate) eq_refl)
    as (_ & Hfiles & Hobj & _).
  split; [exact Hobj | exact Hfiles].
Defined.

(** X9. What the form sends always satisfies the content check of the
    table, [(path IS NOT NULL) OR (message IS NOT NULL AND message != '')]:
    a submission that passes the validation of the form is never turned
    down by that constraint. *)
Theorem new_file_content_check env st u expiry :
  nothing_to_send (file st) (message st) = false →
  files_content_check (new_file st u (sent_path env st u) expiry) = true.
Proof.
  intros Hv. apply nothing_to_send_false in Hv.
  unfold files_content_check, sent_path.
  cbn [new_file NewFile.path NewFile.message].
  destruct Hv as [[f Hf] | Hm].
  - rewrite Hf. unfold or_null. rewrite filePath_of_truthy.
    rewrite bool_decide_eq_true_2 by eauto. reflexivity.
  - destruct (Js.trim (message st)); [congruence|].
    apply orb_true_r.
Qed.

Lemma new_file_content_check_witness :
  files_content_check
    (new_file (Sample.form None "hello" 7) Sample.alice
       (sent_path Sample.env (Sample.form None "hello" 7) Sample.alice) None)
  = true.
Proof.
  exact (new_file_content_check Sample.env (Sample.form None "hello" 7)
           Sample.alice None eq_refl).
Defined.

(** X10. The submit button is enabled exactly when no submission is running
    and the validation of [handleSubmit] would pass, and it reads [Send]
    exactly when no submission is running and there is nothing to send. *)
Theorem submit_button env st :
  (submit_disabled st = false ↔
   uploading st = false ∧ nothing_to_send (file st) (message st) = false)
  ∧ (getButtonText st = "Send"%string ↔
     uploading st = false ∧ nothing_to_send (file st) (message st) = true)
  ∧ (submit_disabled st = false →
     ∀ b, ∃ rest, calls (handleSubmit env st (start st b)).2
                  = AuthGetUser :: rest).
Proof.
  assert (Hcan : canSubmit st = negb (nothing_to_send (file st) (message st))).
  { unfold canSubmit, nothing_to_send.
    destruct (bool_decide (is_Some (file st)));
      destruct (Js.truthy_text (Js.trim (message st))); reflexivity. }
  assert (Hdis : submit_disabled st = false ↔
                 uploading st = false
                 ∧ nothing_to_send (file st) (message st) = false).
  { unfold submit_disabled. rewrite Hcan.
    destruct (uploading st); destruct (nothing_to_send _ _); cbn;
      split; try tauto; try discriminate; intros [? ?]; discriminate. }
  split; [exact Hdis|]. split.
  - unfold getButtonText.
    destruct (uploading st); destruct (nothing_to_send _ _);
      destruct (bool_decide (is_Some (file st))); cbn;
      split; try tauto; try discriminate; intros [? ?]; discriminate.
  - intros Hen b. apply Hdis in Hen as [_ Hv].
    unfold handleSubmit. rewrite Hv.
    rewrite (proj2 (try_catch_setState _ _ _)).
    apply (submit_first_call env st (start st b)).
Qed.

(** A form with a message while nothing is being sent. *)
Lemma submit_button_witness :
  ∃ rest,
    calls (handleSubmit Sample.env (Sample.form None "hello" 7)
             (start (Sample.form None "hello" 7) Sample.empty)).2
    = AuthGetUser :: rest.
Proof.
  exact (proj2 (proj2 (submit_button Sample.env (Sample.form None "hello" 7)))
           eq_refl Sample.empty).
Defined.

End SubmissionPaths.

(** ** Paths and file names *)

Section PathFacts.
Import FileUploadState FileUpload.

Lemma append_cons (c : ascii) (a b : string) :
  String c a +:+ b = String c (a +:+ b).
Proof. reflexivity. Qed.

Lemma append_nil_r (s : string) : s +:+ EmptyString = s.
Proof.
  induction s as [|c s IH]; [reflexivity|].
  rewrite append_cons, IH. reflexivity.
Qed.

Lemma append_assoc (a b c : string) : (a +:+ b) +:+ c = a +:+ (b +:+ c).
Proof.
  induction a as [|x a IH]; [reflexivity|].
  rewrite !append_cons, IH. reflexivity.
Qed.

Lemma has_char_app (c : ascii) (a b : string) :
  has_char c (a +:+ b) = has_char c a || has_char c b.
Proof.
  induction a as [|x a IH]; [reflexivity|].
  rewrite append_cons. cbn [has_char]. rewrite IH, orb_assoc. reflexivity.
Qed.

Lemma split_not_nil (sep : ascii) (s : string) : Js.split sep s ≠ [].
Proof.
  destruct s as [|c s]; cbn; [discriminate|].
  destruct (Ascii.eqb c sep); [discriminate|].
  destruct (Js.split sep s); discriminate.
Qed.

(** No piece of a split contains the separator. *)
Lemma split_no_sep (sep : ascii) (s : string) :
  Forall (λ w, has_char sep w = false) (Js.split sep s).
Proof.
  induction s as [|c s IH]; cbn.
  - repeat constructor.
  - destruct (Ascii.eqb c sep) eqn:Hc.
    + constructor; [reflexivity | exact IH].
    + destruct (Js.split sep s) as [|w ws].
      * repeat constructor. cbn. rewrite Hc. reflexivity.
      * inversion IH as [|? ? Hw Hws]; subst.
        constructor; [|exact Hws]. cbn. rewrite Hc, Hw. reflexivity.
Qed.

(** Joining the pieces of a split gives the string back. *)
Lemma join_cons (sep : ascii) (w : string) (l : list string) :
  l ≠ [] → join sep (w :: l) = w +:+ String sep (join sep l).
Proof. destruct l; [congruence | reflexivity]. Qed.

Lemma join_split (sep : ascii) (s : string) : join sep (Js.split sep s) = s.
Proof.
  induction s as [|c s IH]; [reflexivity|].
  pose proof (split_not_nil sep s) as Hne.
  cbn [Js.split]. destruct (Ascii.eqb c sep) eqn:Hc.
  - apply Ascii.eqb_eq in Hc as ->.
    rewrite join_cons by exact Hne. rewrite IH. reflexivity.
  - destruct (Js.split sep s) as [|w ws]; [congruence|].
    destruct ws as [|w' ws].
    + cbn [join] in *. rewrite IH. reflexivity.
    + rewrite join_cons in IH by discriminate.
      rewrite join_cons by discriminate.
      rewrite append_cons, IH. reflexivity.
Qed.

(** A string without the separator is a single piece. *)
Lemma split_whole (sep : ascii) (s : string) :
  has_char sep s = false → Js.split sep s = [s].
Proof.
  induction s as [|c s IH]; cbn; [reflexivity|].
  intros H. apply orb_false_iff in H as [Hc Hs].
  rewrite Hc, (IH Hs). reflexivity.
Qed.

(** Splitting [a ++ sep ++ b] where [a] is free of the separator. *)
Lemma split_app (sep : ascii) (a b : string) :
  has_char sep a = false →
  Js.split sep (a +:+ String sep b) = a :: Js.split sep b.
Proof.
  induction a as [|c a IH].
  - intros _. change (EmptyString +:+ String sep b) with (String sep b).
    cbn [Js.split]. rewrite Ascii.eqb_refl. reflexivity.
  - intros H. cbn [has_char] in H. apply orb_false_iff in H as [Hc Ha].
    rewrite append_cons. cbn [Js.split]. rewrite Hc, (IH Ha). reflexivity.
Qed.

(** The last piece of a joined list, and what precedes it. *)
Lemma join_last (sep : ascii) (l : list string) :
  l ≠ [] →
  ∃ pre w,
    last l = Some w ∧ join sep l = pre +:+ w
    ∧ (pre = EmptyString ∨ ∃ pre', pre = pre' +:+ String sep EmptyString).
Proof.
  induction l as [|x l IH]; [congruence|]. intros _.
  destruct l as [|y l].
  - exists EmptyString, x. repeat split. left. reflexivity.
  - destruct IH as (pre & w & Hlast & Hjoin & Hpre); [discriminate|].
    exists (x +:+ String sep pre), w. split; [exact Hlast|]. split.
    + change (join sep (x :: y :: l)) with (x +:+ String sep (join sep (y :: l))).
      rewrite Hjoin, append_assoc. reflexivity.
    + right. destruct Hpre as [-> | [pre' ->]].
      * exists x. reflexivity.
      * exists (x +:+ String sep pre'). rewrite append_assoc. reflexivity.
Qed.

Lemma or_string_empty (s : string) : Js.or_string s EmptyString = s.
Proof. destruct s; reflexivity. Qed.

(** X11. The extension taken from a file name is what follows its last
    dot: it contains no dot, and the name is the extension itself or ends
    with a dot followed by the extension. A name without any dot is its own
    extension. *)
Theorem fileExt_spec (f : File.t) :
  has_char "." (fileExt f) = false
  ∧ (∃ pre, File.name f = pre +:+ fileExt f
            ∧ (pre = EmptyString ∨ ∃ pre', pre = pre' +:+ "."))
  ∧ (has_char "." (File.name f) = false → fileExt f = File.name f).
Proof.
  unfold fileExt, Js.pop. rewrite or_string_empty.
  destruct (join_last "." (Js.split "." (File.name f)) (split_not_nil _ _))
    as (pre & w & Hlast & Hjoin & Hpre).
  rewrite join_split in Hjoin. rewrite Hlast. cbn [default from_option id].
  split; [|split].
  - pose proof (split_no_sep "." (File.name f)) as Hall.
    rewrite Forall_forall in Hall. apply Hall.
    apply last_Some_elem_of. exact Hlast.
  - exists pre. split; assumption.
  - intros Hnone. rewrite (split_whole _ _ Hnone) in Hlast.
    cbn in Hlast. congruence.
Qed.

(** A file called [README] gets the extension [README]. *)
Lemma fileExt_spec_witness :
  fileExt {| File.name := "README"; File.size := 3; File.type := EmptyString |}
  = "README"%string.
Proof.
  exact (proj2 (proj2 (fileExt_spec
                         {| File.name := "README"; File.size := 3;
                            File.type := EmptyString |})) eq_refl).
Defined.

Lemma prefix_app (a b : string) : String.prefix a (a +:+ b) = true.
Proof.
  induction a as [|c a IH]; [destruct b; reflexivity|].
  rewrite append_cons. cbn [String.prefix].
  destruct (Ascii.ascii_dec c c); [exact IH | congruence].
Qed.

Lemma substring_whole (s : string) : String.substring 0 (String.length s) s = s.
Proof.
  induction s as [|c s IH]; [reflexivity|].
  cbn [String.length String.substring]. rewrite IH. reflexivity.
Qed.

Lemma substring_app (a b : string) :
  String.substring (String.length a)
    (String.length (a +:+ b) - String.length a) (a +:+ b) = b.
Proof.
  induction a as [|c a IH].
  - change (EmptyString +:+ b) with b. cbn [String.length].
    rewrite Nat.sub_0_r. apply substring_whole.
  - rewrite append_cons. cbn [String.length String.substring].
    exact IH.
Qed.

Lemma length_app_char (a : string) (c : ascii) :
  String.length (a +:+ String c EmptyString) = (String.length a + 1)%nat.
Proof.
  induction a as [|x a IH]; [reflexivity|].
  rewrite append_cons. cbn [String.length]. rewrite IH. reflexivity.
Qed.

(** The object [folder/name] lies in [folder] under the name [name]. *)
Lemma name_in_path (folder name : string) :
  name_in folder (folder +:+ "/" +:+ name) = Some name.
Proof.
  unfold name_in.
  replace (folder +:+ "/" +:+ name) with ((folder +:+ "/") +:+ name)
    by (rewrite append_assoc; reflexivity).
  rewrite prefix_app. f_equal.
  rewrite <- (length_app_char folder "/").
  apply substring_app.
Qed.

(** X12. The path built for an upload splits back into its two parts: when
    neither the user's identifier nor the generated file name contains a
    slash, [path.split('/')] is the identifier followed by the file name,
    so that the look-ups of the lists address the user's folder and search
    for exactly the generated name, under which the object lies. *)
Theorem filePath_split env (u : User.t) (f : File.t) :
  has_char "/" (User.id u) = false →
  has_char "/" (fileName env f) = false →
  Js.split "/" (filePath_of env u f) = [User.id u; fileName env f]
  ∧ name_in (User.id u) (filePath_of env u f) = Some (fileName env f).
Proof.
  intros Hu Hn. unfold filePath_of. split.
  - change (User.id u +:+ "/" +:+ fileName env f)
      with (User.id u +:+ String "/" (fileName env f)).
    rewrite (split_app _ _ _ Hu), (split_whole _ _ Hn). reflexivity.
  - apply name_in_path.
Qed.

Lemma filePath_split_witness :
  Js.split "/" (filePath_of Sample.env Sample.alice Sample.notes)
  = ["alice"; "k3x9_1700000000000.txt"]%string.
Proof.
  exact (proj1 (filePath_split Sample.env Sample.alice Sample.notes
                  eq_refl eq_refl)).
Defined.

End PathFacts.

(** ** More on share links *)

Section ShareMore.

(** The run of the list's [generateShareableLink] when the object is found,
    a URL is issued and the clipboard takes it. *)
Lemma generateShareableLink_run env fs fileId p st b url :
  p ≠ EmptyString →
  refuses env (StorageList (default EmptyString (Js.split "/" p !! 0%nat))
                 (Js.split "/" p !! 1%nat)) = None →
  storage_list env (default EmptyString (Js.split "/" p !! 0%nat))
    (Js.split "/" p !! 1%nat) b ≠ [] →
  refuses env (StorageCreateSignedUrl p 3600) = None →
  signedUrl env p = Some url → url ≠ EmptyString →
  refuses env (ClipboardWriteText url) = None →
  FileList.generateShareableLink env fs fileId (Some p) (start st b)
  = (inr tt,
     {| ui := FileList.setDeleting None
                (FileList.setDeleteSuccess (Some link_copied)
                   (FileList.setDeleting (Some fileId) st));
        backend :=
          match refuses env (FilesUpdateDownloadCount fileId
                               (FileList.next_download_count fs fileId)) with
          | Some _ => b
          | None => files_update_download_count env fileId
                      (FileList.next_download_count fs fileId) b
          end;
        calls :=
          [StorageList (default EmptyString (Js.split "/" p !! 0%nat))
             (Js.split "/" p !! 1%nat);
           StorageCreateSignedUrl p 3600;
           ClipboardWriteText url;
           FilesUpdateDownloadCount fileId
             (FileList.next_download_count fs fileId)]
          ++ match refuses env (FilesUpdateDownloadCount fileId
                                  (FileList.next_download_count fs fileId)) with
             | Some _ => []
             | None => [Refresh]
             end |}).
Proof.
  intros Hp Hlist Hfound Hsign Hurl Hne Hclip.
  unfold FileList.generateShareableLink.
  assert (truthy_path (Some p) = true) as ->.
  { destruct p; [congruence | reflexivity]. }
  cbn [negb default from_option id].
  unfold finally, try_catch, FileList.share, list_objects, createSignedUrl,
    await, clipboard_writeText, update_download_count, refresh, request.
  unfold mbind, act_bind, mret, act_ret, throw, setState.
  cbn [start ui backend calls]. rewrite Hlist.
  cbn [ui backend calls].
  destruct (storage_list env _ _ b) as [|o os] eqn:Hl; [congruence|].
  cbn [length]. rewrite bool_decide_eq_false_2 by discriminate.
  rewrite Hsign. cbn [ui backend calls]. rewrite Hurl.
  assert (truthy_path (Some url) = true) as ->.
  { destruct url; [congruence | reflexivity]. }
  cbn [negb default from_option id]. rewrite Hclip.
  cbn [ui backend calls].
  destruct (refuses env (FilesUpdateDownloadCount _ _)); reflexivity.
Qed.

(** X13. Sharing from the list when the object is found: the handler
    looks the object up, asks for a URL valid for 3600 seconds, copies it,
    and only then writes the download count of its list plus one. The list
    reports the copy and shows no new error. If the count is written and
    the row belongs to the user, the row carries the new count afterwards,
    and nothing else in the backend changed. *)
Theorem generateShareableLink_issued env fs fileId p st b url :
  p ≠ EmptyString →
  refuses env (StorageList (default EmptyString (Js.split "/" p !! 0%nat))
                 (Js.split "/" p !! 1%nat)) = None →
  storage_list env (default EmptyString (Js.split "/" p !! 0%nat))
    (Js.split "/" p !! 1%nat) b ≠ [] →
  refuses env (StorageCreateSignedUrl p 3600) = None →
  signedUrl env p = Some url → url ≠ EmptyString →
  refuses env (ClipboardWriteText url) = None →
  (∃ rest,
     calls (FileList.generateShareableLink env fs fileId (Some p) (start st b)).2
     = [StorageList (default EmptyString (Js.split "/" p !! 0%nat))
          (Js.split "/" p !! 1%nat);
        StorageCreateSignedUrl p 3600;
        ClipboardWriteText url;
        FilesUpdateDownloadCount fileId (FileList.next_download_count fs fileId)]
       ++ rest)
  ∧ FileList.deleteSuccess
      (ui (FileList.generateShareableLink env fs fileId (Some p) (start st b)).2)
    = Some link_copied
  ∧ FileList.error
      (ui (FileList.generateShareableLink env fs fileId (Some p) (start st b)).2)
    = FileList.error st
  ∧ objects (backend (FileList.generateShareableLink env fs fileId (Some p)
                        (start st b)).2) = objects b
  ∧ (∀ r, refuses env (FilesUpdateDownloadCount fileId
                         (FileList.next_download_count fs fileId)) = None →
          files b !! fileId = Some r → owned env r = true →
          files (backend (FileList.generateShareableLink env fs fileId (Some p)
                            (start st b)).2)
          = <[fileId := with_download_count
                          (FileList.next_download_count fs fileId) r]> (files b)).
Proof.
  intros Hp Hlist Hfound Hsign Hurl Hne Hclip.
  rewrite (generateShareableLink_run env fs fileId p st b url) by assumption.
  cbn [snd ui backend calls].
  split; [eexists; reflexivity|]. split; [reflexivity|]. split; [reflexivity|].
  split.
  - destruct (refuses env (FilesUpdateDownloadCount _ _)); [reflexivity|].
    unfold files_update_download_count.
    destruct (files b !! fileId) as [r|]; [|reflexivity].
    destruct (owned env r); reflexivity.
  - intros r Hupd Hr Hown. rewrite Hupd.
    unfold files_update_download_count. rewrite Hr, Hown. reflexivity.
Qed.

(** Alice shares her stored file from a list that shows 2 downloads. *)
Lemma generateShareableLink_issued_witness :
  FileRow.download_count
    <$> files (backend (FileList.generateShareableLink Sample.env
                          [Sample.entry Sample.alices_file] "row-a"
                          (Some "alice/notes.txt"%string)
                          (start (Sample.listing [Sample.alices_file])
                             Sample.stored)).2) !! "row-a"%string
  = Some (Some 3).
Proof.
  destruct (generateShareableLink_issued Sample.env
              [Sample.entry Sample.alices_file] "row-a" "alice/notes.txt"
              (Sample.listing [Sample.alices_file]) Sample.stored
              "https://storage.example/sign/alice/notes.txt"
              ltac:(discriminate) eq_refl ltac:(vm_compute; discriminate)
              eq_refl eq_refl ltac:(discriminate) eq_refl)
    as (_ & _ & _ & _ & Hrow).
  rewrite (Hrow Sample.alices_file eq_refl eq_refl eq_refl).
  reflexivity.
Defined.

(** X14. A failure to write the download count does not take the link
    back: when the update is refused after the URL was copied, the list
    still reports the copy, shows no new error, the backend is unchanged
    and the list is not refreshed. *)
Theorem generateShareableLink_count_refused env fs fileId p st b url e :
  p ≠ EmptyString →
  refuses env (StorageList (default EmptyString (Js.split "/" p !! 0%nat))
                 (Js.split "/" p !! 1%nat)) = None →
  storage_list env (default EmptyString (Js.split "/" p !! 0%nat))
    (Js.split "/" p !! 1%nat) b ≠ [] →
  refuses env (StorageCreateSignedUrl p 3600) = None →
  signedUrl env p = Some url → url ≠ EmptyString →
  refuses env (ClipboardWriteText url) = None →
  refuses env (FilesUpdateDownloadCount fileId
                 (FileList.next_download_count fs fileId)) = Some e →
  FileList.generateShareableLink env fs fileId (Some p) (start st b)
  = (inr tt,
     {| ui := FileList.setDeleting None
                (FileList.setDeleteSuccess (Some link_copied)
                   (FileList.setDeleting (Some fileId) st));
        backend := b;
        calls :=
          [StorageList (default EmptyString (Js.split "/" p !! 0%nat))
             (Js.split "/" p !! 1%nat);
           StorageCreateSignedUrl p 3600;
           ClipboardWriteText url;
           FilesUpdateDownloadCount fileId
             (FileList.next_download_count fs fileId)] |}).
Proof.
  intros Hp Hlist Hfound Hsign Hurl Hne Hclip Hupd.
  rewrite (generateShareableLink_run env fs fileId p st b url) by assumption.
  rewrite Hupd. reflexivity.
Qed.

Lemma generateShareableLink_count_refused_witness :
  backend (FileList.generateShareableLink
             (Sample.with_refusal Sample.env
                (λ c, match c with
                      | FilesUpdateDownloadCount _ _ => Some Sample.unavailable
                      | _ => None
                      end))
             [Sample.entry Sample.alices_file] "row-a"
             (Some "alice/notes.txt"%string)
             (start (Sample.listing [Sample.alices_file]) Sample.stored)).2
  = Sample.stored.
Proof.
  rewrite (generateShareableLink_count_refused
             (Sample.with_refusal Sample.env
                (λ c, match c with
                      | FilesUpdateDownloadCount _ _ => Some Sample.unavailable
                      | _ => None
                      end))
             [Sample.entry Sample.alices_file] "row-a" "alice/notes.txt"
             (Sample.listing [Sample.alices_file]) Sample.stored
             "https://storage.example/sign/alice/notes.txt" Sample.unavailable
             ltac:(discriminate) eq_refl ltac:(vm_compute; discriminate)
             eq_refl eq_refl ltac:(discriminate) eq_refl eq_refl).
  reflexivity.
Defined.

(** X15. The count written by the list's share action is read from the
    list the handler holds, not from the stored row: it is 1 when the list
    has no entry with that identifier, and otherwise the count of the first
    such entry plus one, a missing count being read as 0. *)
Theorem next_download_count_spec (fs : list FileData.t) (fileId : string) :
  ((∀ f, f ∈ fs → FileData.id f ≠ fileId) →
   FileList.next_download_count fs fileId = 1)
  ∧ (∀ pre f rest,
       fs = pre ++ f :: rest →
       (∀ g, g ∈ pre → FileData.id g ≠ fileId) →
       FileData.id f = fileId →
       FileList.next_download_count fs fileId
       = default 0 (FileData.download_count f) + 1).
Proof.
  unfold FileList.next_download_count. split.
  - intros Hnone.
    assert (List.find (λ f, bool_decide (FileData.id f = fileId)) fs = None)
      as ->; [|reflexivity].
    induction fs as [|g fs IH]; [reflexivity|]. cbn.
    rewrite bool_decide_eq_false_2 by (apply Hnone; left).
    apply IH. intros f Hf. apply Hnone. right. exact Hf.
  - intros pre f rest -> Hpre Hid.
    assert (List.find (λ f, bool_decide (FileData.id f = fileId))
              (pre ++ f :: rest) = Some f) as ->.
    { induction pre as [|g pre IH]; cbn.
      - rewrite bool_decide_eq_true_2 by exact Hid. reflexivity.
      - rewrite bool_decide_eq_false_2 by (apply Hpre; left).
        apply IH. intros h Hh. apply Hpre. right. exact Hh. }
    cbn. destruct (FileData.download_count f); reflexivity.
Qed.

(** A list that does not show the entry. *)
Lemma next_download_count_spec_witness :
  FileList.next_download_count [Sample.entry Sample.bobs_message] "row-a" = 1.
Proof.
  apply (proj1 (next_download_count_spec [Sample.entry Sample.bobs_message]
                  "row-a")).
  intros f Hf. apply list_elem_of_singleton in Hf as ->. discriminate.
Defined.

(** X16. Sharing an entry without a file sends nothing. In the list the
    handler returns at once and leaves the component as it is; in the
    dashboard it shows [No file to share]. *)
Theorem share_without_path env fs fileId path file st st' b :
  truthy_path path = false → truthy_path (FileData.path file) = false →
  FileList.generateShareableLink env fs fileId path (start st b)
  = (inr tt, start st b)
  ∧ DashboardList.handleShareLink env file (start st' b)
    = (inr tt, start (DashboardList.setError (Some "No file to share") st') b).
Proof.
  intros Hp Hf. split.
  - unfold FileList.generateShareableLink. rewrite Hp. reflexivity.
  - unfold DashboardList.handleShareLink. rewrite Hf. reflexivity.
Qed.

Lemma share_without_path_witness :
  calls (DashboardList.handleShareLink Sample.env
           (Sample.entry Sample.alices_message)
           (start (Sample.dashboard [Sample.alices_message] None)
              Sample.stored)).2 = [].
Proof.
  rewrite (proj2 (share_without_path Sample.env [] "row-c" None
                    (Sample.entry Sample.alices_message)
                    (Sample.listing []) (Sample.dashboard
                                           [Sample.alices_message] None)
                    Sample.stored eq_refl eq_refl)).
  reflexivity.
Defined.

(** What writing a download count can change. *)
Lemma files_update_download_count_spec env i n b :
  objects (files_update_download_count env i n b) = objects b
  ∧ (∀ j, j ≠ i →
       files (files_update_download_count env i n b) !! j = files b !! j)
  ∧ ((∀ r, files b !! i = Some r → owned env r = false) →
     files_update_download_count env i n b = b).
Proof.
  unfold files_update_download_count.
  destruct (files b !! i) as [r|] eqn:Hr; [|repeat split].
  destruct (owned env r) eqn:Hown.
  - cbn. split; [reflexivity|]. split.
    + intros j Hj. apply lookup_insert_ne. congruence.
    + intros Hnot. specialize (Hnot r eq_refl). congruence.
  - repeat split.
Qed.

Lemma generateShareableLink_backend env fs fileId path st b :
  backend (FileList.generateShareableLink env fs fileId path (start st b)).2 = b
  ∨ backend (FileList.generateShareableLink env fs fileId path (start st b)).2
    = files_update_download_count env fileId
        (FileList.next_download_count fs fileId) b.
Proof.
  unfold FileList.generateShareableLink.
  destruct (truthy_path path); [|left; reflexivity].
  cbn [negb].
  rewrite (proj1 (finally_run _ _ _)), (proj1 (try_catch_setState _ _ _)).
  unfold FileList.share, list_objects, createSignedUrl, await,
    clipboard_writeText, update_download_count, refresh, request.
  unfold mbind, act_bind, mret, act_ret, throw, setState.
  cbn [start ui backend calls].
  destruct (refuses env (StorageList _ _)); [left; reflexivity|].
  cbn [ui backend calls].
  destruct (bool_decide (length (storage_list env _ _ b) = 0%nat));
    [left; reflexivity|].
  destruct (refuses env (StorageCreateSignedUrl _ _)); [left; reflexivity|].
  cbn [ui backend calls].
  destruct (negb (truthy_path (signedUrl env _))); [left; reflexivity|].
  destruct (refuses env (ClipboardWriteText _)); [left; reflexivity|].
  cbn [ui backend calls].
  destruct (refuses env (FilesUpdateDownloadCount _ _));
    [left; reflexivity | right; reflexivity].
Qed.

Lemma handleShareLink_backend env file st b :
  backend (DashboardList.handleShareLink env file (start st b)).2 = b
  ∨ backend (DashboardList.handleShareLink env file (start st b)).2
    = files_update_download_count env (FileData.id file)
        (DashboardList.next_download_count file) b.
Proof.
  unfold DashboardList.handleShareLink.
  rewrite (proj1 (try_catch_setState _ (λ _, _) _)).
  destruct (truthy_path (FileData.path file)); [|left; reflexivity].
  cbn [negb].
  unfold await, createSignedUrl, clipboard_writeText, update_download_count, request.
  unfold mbind, act_bind, mret, act_ret, throw, setState.
  cbn [start ui backend calls].
  destruct (refuses env (StorageCreateSignedUrl _ _)); [left; reflexivity|].
  cbn [ui backend calls].
  destruct (signedUrl env _) as [url|]; [|left; reflexivity].
  destruct (refuses env (ClipboardWriteText url)); [left; reflexivity|].
  cbn [ui backend calls].
  destruct (refuses env (FilesUpdateDownloadCount _ _));
    [left; reflexivity | right; reflexivity].
Qed.

(** X17. Whatever happens, the share actions of the list and of the
    dashboard change nothing in the backend but the download count of the
    shared row: the bucket and every other row stay as they are, and when
    the row is missing or belongs to somebody else the whole backend is
    unchanged, even if a link was issued. *)
Theorem share_changes_count_only env fs fileId path file st st' b :
  (objects (backend (FileList.generateShareableLink env fs fileId path
                       (start st b)).2) = objects b
   ∧ (∀ j, j ≠ fileId →
        files (backend (FileList.generateShareableLink env fs fileId path
                          (start st b)).2) !! j = files b !! j)
   ∧ ((∀ r, files b !! fileId = Some r → owned env r = false) →
      backend (FileList.generateShareableLink env fs fileId path
                 (start st b)).2 = b))
  ∧ (objects (backend (DashboardList.handleShareLink env file
                         (start st' b)).2) = objects b
     ∧ (∀ j, j ≠ FileData.id file →
          files (backend (DashboardList.handleShareLink env file
                            (start st' b)).2) !! j = files b !! j)
     ∧ ((∀ r, files b !! FileData.id file = Some r → owned env r = false) →
        backend (DashboardList.handleShareLink env file (start st' b)).2 = b)).
Proof.
  split.
  - destruct (files_update_download_count_spec env fileId
                (FileList.next_download_count fs fileId) b) as (Ho & Hf & Hn).
    destruct (generateShareableLink_backend env fs fileId path st b)
      as [-> | ->]; repeat split; auto.
  - destruct (files_update_download_count_spec env (FileData.id file)
                (DashboardList.next_download_count file) b) as (Ho & Hf & Hn).
    destruct (handleShareLink_backend env file st' b)
      as [-> | ->]; repeat split; auto.
Qed.

(** Alice shares a file of Bob from the dashboard: a link is copied, the
    table is as before. *)
Lemma share_changes_count_only_witness :
  calls (DashboardList.handleShareLink Sample.env (Sample.entry Sample.bobs_file)
           (start (Sample.dashboard [Sample.bobs_file] None)
              Sample.stored_bob)).2
  = [StorageCreateSignedUrl "bob/plan.txt" 3600;
     ClipboardWriteText "https://storage.example/sign/bob/plan.txt";
     FilesUpdateDownloadCount "row-e" 3]
  ∧ backend (DashboardList.handleShareLink Sample.env
               (Sample.entry Sample.bobs_file)
               (start (Sample.dashboard [Sample.bobs_file] None)
                  Sample.stored_bob)).2
    = Sample.stored_bob.
Proof.
  split; [reflexivity|].
  apply (proj2 (share_changes_count_only Sample.env [] "row-e" None
                  (Sample.entry Sample.bobs_file) (Sample.listing [])
                  (Sample.dashboard [Sample.bobs_file] None)
                  Sample.stored_bob)).
  intros r Hr. cbn in Hr. injection Hr as <-. reflexivity.
Defined.

(** The listing is not empty when the search selects a stored object. *)
Lemma storage_list_found env folder search b k f :
  objects b !! k = Some f → listed env folder search (k, f) = true →
  storage_list env folder search b ≠ [].
Proof.
  intros Hk Hl. unfold storage_list.
  assert (Hin : In (k, f) (List.filter (listed env folder search)
                             (map_to_list (objects b)))).
  { apply filter_In. split; [|exact Hl].
    apply list_elem_of_In, elem_of_map_to_list. exact Hk. }
  destruct (List.filter _ _); [contradiction | discriminate].
Qed.

(** X18. A file that was just submitted can be shared from the list. If
    neither the user's identifier nor the generated name contains a slash
    and the search of the bucket selects a name equal to the one searched,
    the look-up made for the created row addresses the user's folder with
    the generated name and finds the object; when the signer issues a URL
    and the clipboard takes it, the list reports the link as copied. *)
Theorem submitted_file_shared env env' st b f u fs st' url :
  FileUploadState.error (ui (submitted env st b)) = None →
  FileUploadState.file st = Some f → user env = Some u →
  has_char "/" (User.id u) = false →
  has_char "/" (FileUpload.fileName env f) = false →
  search_hit env' (FileUpload.fileName env f) (FileUpload.fileName env f) = true →
  refuses env' (StorageList (User.id u) (Some (FileUpload.fileName env f))) = None →
  refuses env' (StorageCreateSignedUrl (FileUpload.filePath_of env u f) 3600) = None →
  signedUrl env' (FileUpload.filePath_of env u f) = Some url →
  url ≠ EmptyString →
  refuses env' (ClipboardWriteText url) = None →
  (∃ rest,
     calls (FileList.generateShareableLink env' fs (uuid env)
              (Some (FileUpload.filePath_of env u f))
              (start st' (backend (submitted env st b)))).2
     = [StorageList (User.id u) (Some (FileUpload.fileName env f));
        StorageCreateSignedUrl (FileUpload.filePath_of env u f) 3600;
        ClipboardWriteText url;
        FilesUpdateDownloadCount (uuid env)
          (FileList.next_download_count fs (uuid env))] ++ rest)
  ∧ FileList.deleteSuccess
      (ui (FileList.generateShareableLink env' fs (uuid env)
             (Some (FileUpload.filePath_of env u f))
             (start st' (backend (submitted env st b)))).2)
    = Some link_copied.
Proof.
  intros Hok Hf Hu Hid Hname Hhit Hlist Hsign Hurl Hne Hclip.
  destruct (submitted_inv env st b Hok)
    as (u' & expiry & recipient & Hu' & _ & _ & _ & Hobj & _).
  assert (u' = u) by congruence. subst u'.
  unfold sent_path in Hobj. rewrite Hf in Hobj.
  assert (Hsplit : Js.split "/" (FileUpload.filePath_of env u f)
                   = [User.id u; FileUpload.fileName env f]).
  { unfold FileUpload.filePath_of.
    change (User.id u +:+ "/" +:+ FileUpload.fileName env f)
      with (User.id u +:+ String "/" (FileUpload.fileName env f)).
    rewrite (split_app _ _ _ Hid), (split_whole _ _ Hname). reflexivity. }
  pose proof (name_in_path (User.id u) (FileUpload.fileName env f)) as Hin.
  change (User.id u +:+ "/" +:+ FileUpload.fileName env f)
    with (FileUpload.filePath_of env u f) in Hin.
  assert (Hp : FileUpload.filePath_of env u f ≠ EmptyString).
  { pose proof (filePath_of_truthy env u f) as Ht.
    destruct (FileUpload.filePath_of env u f); [discriminate | discriminate]. }
  assert (Hfound :
    storage_list env'
      (default EmptyString (Js.split "/" (FileUpload.filePath_of env u f) !! 0%nat))
      (Js.split "/" (FileUpload.filePath_of env u f) !! 1%nat)
      (backend (submitted env st b)) ≠ []).
  { rewrite Hsplit. cbn [lookup list_lookup default from_option id].
    apply (storage_list_found env' _ _ _ (FileUpload.filePath_of env u f) f).
    - rewrite Hobj. apply lookup_insert_eq.
    - unfold listed. cbn [fst]. rewrite Hin. exact Hhit. }
  rewrite (generateShareableLink_run env' fs (uuid env)
             (FileUpload.filePath_of env u f) st'
             (backend (submitted env st b)) url Hp);
    try assumption.
  - rewrite Hsplit. cbn [lookup list_lookup default from_option id snd calls ui].
    split; [eexists; reflexivity | reflexivity].
  - rewrite Hsplit. cbn [lookup list_lookup default from_option id]. exact Hlist.
Qed.

(** Alice sends [notes.txt] and shares it. *)
Lemma submitted_file_shared_witness :
  FileList.deleteSuccess
    (ui (FileList.generateShareableLink Sample.env [] (uuid Sample.env)
           (Some (FileUpload.filePath_of Sample.env Sample.alice Sample.notes))
           (start (Sample.listing [])
              (backend (submitted Sample.env
                          (Sample.form (Some Sample.notes) "see attached" 7)
                          Sample.empty)))).2)
  = Some link_copied.
Proof.
  exact (proj2 (submitted_file_shared Sample.env Sample.env
                  (Sample.form (Some Sample.notes) "see attached" 7)
                  Sample.empty Sample.notes Sample.alice [] (Sample.listing [])
                  "https://storage.example/sign/alice/k3x9_1700000000000.txt"
                  eq_refl eq_refl eq_refl eq_refl eq_refl eq_refl eq_refl
                  eq_refl eq_refl ltac:(discriminate) eq_refl)).
Defined.

End ShareMore.

(** ** More on deletion *)

Section DeletionMore.

Lemma truthy_path_Some (p : string) :
  p ≠ EmptyString → truthy_path (Some p) = true.
Proof. destruct p; [congruence | reflexivity]. Qed.

Lemma elem_of_without (i : string) (l : list FileData.t) (g : FileData.t) :
  g ∈ FileList.without i l ↔ g ∈ l ∧ FileData.id g ≠ i.
Proof.
  unfold FileList.without. rewrite !list_elem_of_In, filter_In.
  rewrite negb_true_iff, bool_decide_eq_false. reflexivity.
Qed.

(** The run of the list's [handleDelete] on an entry with a path whose
    removal is not refused. *)
Lemma FileList_handleDelete_run env file st b p :
  FileData.path file = Some p → p ≠ EmptyString →
  refuses env (StorageRemove [p]) = None →
  FileList.handleDelete env file (start st b)
  = (inr tt,
     match refuses env (FilesDelete (FileData.id file)) with
     | Some e =>
         {| ui := FileList.setDeleting None
                    (FileList.setError
                       (Some (Js.message_or e "Error deleting file"))
                       (FileList.setError None
                          (FileList.setDeleting (Some (FileData.id file)) st)));
            backend := storage_remove [p] b;
            calls := [StorageRemove [p]; FilesDelete (FileData.id file)] |}
     | None =>
         {| ui := FileList.setDeleting None
                    (FileList.setDeleteSuccess
                       (Some (FileList.dquote +:+ FileData.name file
                              +:+ FileList.dquote +:+ " has been deleted"))
                       (FileList.setFiles (FileList.without (FileData.id file))
                          (FileList.setError None
                             (FileList.setDeleting
                                (Some (FileData.id file)) st))));
            backend := files_delete env (FileData.id file) (storage_remove [p] b);
            calls := [StorageRemove [p]; FilesDelete (FileData.id file)] |}
     end).
Proof.
  intros Hpath Hp Hrem. unfold FileList.handleDelete, finally, try_catch.
  unfold mbind, act_bind, mret, act_ret, throw, setState, remove,
    delete_eq_id, request.
  cbn [start ui backend calls]. rewrite Hpath, (truthy_path_Some p Hp).
  cbn [default from_option id]. rewrite Hrem.
  cbn [error_of ui backend calls app].
  destruct (refuses env (FilesDelete (FileData.id file))); reflexivity.
Qed.

(** X19. When the owner deletes an entry with a file from the list and
    neither request is refused, the object and the row are both gone, every
    other object and row is untouched, no error is shown, and the list
    shows exactly the entries it showed before except those with the
    deleted identifier. *)
Theorem handleDelete_owner env file st b r p :
  files b !! FileData.id file = Some r → owned env r = true →
  FileData.path file = Some p → p ≠ EmptyString →
  refuses env (StorageRemove [p]) = None →
  refuses env (FilesDelete (FileData.id file)) = None →
  backend (FileList.handleDelete env file (start st b)).2
  = {| objects := delete p (objects b);
       files := delete (FileData.id file) (files b) |}
  ∧ FileList.error (ui (FileList.handleDelete env file (start st b)).2) = None
  ∧ ∀ g, g ∈ FileList.files (ui (FileList.handleDelete env file (start st b)).2)
         ↔ g ∈ FileList.files st ∧ FileData.id g ≠ FileData.id file.
Proof.
  intros Hr Hown Hpath Hp Hrem Hdel.
  rewrite (FileList_handleDelete_run env file st b p Hpath Hp Hrem), Hdel.
  cbn [snd ui backend calls]. split; [|split].
  - unfold files_delete, storage_remove. cbn [files objects foldr].
    rewrite Hr, Hown. reflexivity.
  - reflexivity.
  - intros g. cbn. apply elem_of_without.
Qed.

(** Alice deletes her file. *)
Lemma handleDelete_owner_witness :
  backend (FileList.handleDelete Sample.env (Sample.entry Sample.alices_file)
             (start (Sample.listing [Sample.alices_file]) Sample.stored)).2
  = {| objects := delete "alice/notes.txt"%string (objects Sample.stored);
       files := delete "row-a"%string (files Sample.stored) |}.
Proof.
  exact (proj1 (handleDelete_owner Sample.env (Sample.entry Sample.alices_file)
                  (Sample.listing [Sample.alices_file]) Sample.stored
                  Sample.alices_file "alice/notes.txt"
                  eq_refl eq_refl eq_refl ltac:(discriminate) eq_refl eq_refl)).
Defined.

(** X20. When the removal of the object succeeds and the deletion of the
    row is then refused, the list shows the error and the row stays in the
    table although its object is gone: the removal is not undone and the
    entry stays in the list. *)
Theorem handleDelete_row_refused env file st b p e :
  FileData.path file = Some p → p ≠ EmptyString →
  refuses env (StorageRemove [p]) = None →
  refuses env (FilesDelete (FileData.id file)) = Some e →
  files (backend (FileList.handleDelete env file (start st b)).2) = files b
  ∧ objects (backend (FileList.handleDelete env file (start st b)).2)
    = delete p (objects b)
  ∧ calls (FileList.handleDelete env file (start st b)).2
    = [StorageRemove [p]; FilesDelete (FileData.id file)]
  ∧ FileList.error (ui (FileList.handleDelete env file (start st b)).2)
    = Some (Js.message_or e "Error deleting file")
  ∧ FileList.files (ui (FileList.handleDelete env file (start st b)).2)
    = FileList.files st.
Proof.
  intros Hpath Hp Hrem Hdel.
  rewrite (FileList_handleDelete_run env file st b p Hpath Hp Hrem), Hdel.
  repeat split.
Qed.

(** The record store is down while Alice deletes her file. *)
Lemma handleDelete_row_refused_witness :
  files (backend (FileList.handleDelete
                    (Sample.with_refusal Sample.env
                       (λ c, match c with
                             | FilesDelete _ => Some Sample.unavailable
                             | _ => None
                             end))
                    (Sample.entry Sample.alices_file)
                    (start (Sample.listing [Sample.alices_file])
                       Sample.stored)).2) !! "row-a"%string
  = Some Sample.alices_file
  ∧ objects (backend (FileList.handleDelete
                        (Sample.with_refusal Sample.env
                           (λ c, match c with
                                 | FilesDelete _ => Some Sample.unavailable
                                 | _ => None
                                 end))
                        (Sample.entry Sample.alices_file)
                        (start (Sample.listing [Sample.alices_file])
                           Sample.stored)).2) !! "alice/notes.txt"%string
    = None.
Proof.
  destruct (handleDelete_row_refused
              (Sample.with_refusal Sample.env
                 (λ c, match c with
                       | FilesDelete _ => Some Sample.unavailable
                       | _ => None
                       end))
              (Sample.entry Sample.alices_file)
              (Sample.listing [Sample.alices_file]) Sample.stored
              "alice/notes.txt" Sample.unavailable
              eq_refl ltac:(discriminate) eq_refl eq_refl)
    as (Hfiles & Hobj & _).
  rewrite Hfiles, Hobj. split; reflexivity.
Defined.

End DeletionMore.

(** ** More on the dashboard statistics *)

Section StatisticsMore.

Lemma filter_all {A} (l : list A) : List.filter (λ _, true) l = l.
Proof. induction l as [|x l IH]; cbn; [reflexivity | rewrite IH; reflexivity]. Qed.

Lemma filter_length_le {A} (f : A → bool) (l : list A) :
  (length (List.filter f l) ≤ length l)%nat.
Proof. induction l as [|x l IH]; cbn; [lia|]. destruct (f x); cbn; lia. Qed.

Lemma filter_Permutation' {A} (f : A → bool) (l l' : list A) :
  l ≡ₚ l' → List.filter f l ≡ₚ List.filter f l'.
Proof.
  induction 1 as [|x l l' _ IH|x y l|l1 l2 l3 _ IH1 _ IH2]; cbn.
  - reflexivity.
  - destruct (f x); [constructor|]; exact IH.
  - destruct (f x); destruct (f y); try reflexivity. constructor.
  - etransitivity; eassumption.
Qed.

(** The sum computed by [reduce] does not depend on the order of the rows. *)
Lemma foldl_downloads (acc : Z) (l : list (option Z)) :
  foldl (λ acc curr, acc + default 0 curr) acc l
  = acc + foldr (λ curr acc, default 0 curr + acc) 0 l.
Proof.
  revert acc. induction l as [|x l IH]; intros acc; cbn; [lia|].
  rewrite IH. lia.
Qed.

Lemma sum_downloads_Permutation (l l' : list (option Z)) :
  l ≡ₚ l' → Dashboard.sum_downloads (Some l) = Dashboard.sum_downloads (Some l').
Proof.
  intros Hp. unfold Dashboard.sum_downloads. rewrite !foldl_downloads. f_equal.
  induction Hp as [|x l l' _ IH|x y l|l1 l2 l3 _ IH1 _ IH2]; cbn;
    [reflexivity | rewrite IH; reflexivity | lia | congruence].
Qed.

(** The run of [fetchDashboardStats] when none of its three requests is
    refused. *)
Lemma fetchDashboardStats_run env now st b :
  refuses env (FilesCount None) = None →
  refuses env (FilesCount (Some now)) = None →
  refuses env FilesSelectDownloadCount = None →
  Dashboard.fetchDashboardStats env now (start st b)
  = (inr tt,
     {| ui := {| Dashboard.stats :=
                   {| Dashboard.totalFiles := files_count env None b;
                      Dashboard.activeTransfers := files_count env (Some now) b;
                      Dashboard.totalDownloads :=
                        Dashboard.sum_downloads
                          (Some (files_download_counts env b)) |};
                 Dashboard.loading := false |};
        backend := b;
        calls := [FilesCount None; FilesCount (Some now);
                  FilesSelectDownloadCount] |}).
Proof.
  intros H1 H2 H3.
  unfold Dashboard.fetchDashboardStats, finally, try_catch, Dashboard.count,
    Dashboard.select_download_count, request.
  unfold mbind, act_bind, mret, act_ret, setState.
  cbn [start ui backend calls]. rewrite H1. cbn [ui backend calls].
  rewrite H2. cbn [ui backend calls]. rewrite H3. reflexivity.
Qed.

(** X21. When its three queries are answered, [fetchDashboardStats] shows
    the number of rows of the signed-in user as total, a count of active
    transfers between 0 and that total, namely the rows with an expiry date
    not before now, and the sum of the download counts of these rows, a
    missing count being 0. It changes nothing in the backend and ends the
    loading state. *)
Theorem fetchDashboardStats_totals env now st b :
  refuses env (FilesCount None) = None →
  refuses env (FilesCount (Some now)) = None →
  refuses env FilesSelectDownloadCount = None →
  Dashboard.totalFiles
    (Dashboard.stats (ui (Dashboard.fetchDashboardStats env now (start st b)).2))
  = Z.of_nat (length (visible env b))
  ∧ Dashboard.activeTransfers
      (Dashboard.stats (ui (Dashboard.fetchDashboardStats env now (start st b)).2))
    = Z.of_nat (length (List.filter (λ r, gte (FileRow.expiry_date r) now)
                          (visible env b)))
  ∧ 0 ≤ Dashboard.activeTransfers
          (Dashboard.stats
             (ui (Dashboard.fetchDashboardStats env now (start st b)).2))
      ≤ Dashboard.totalFiles
          (Dashboard.stats
             (ui (Dashboard.fetchDashboardStats env now (start st b)).2))
  ∧ Dashboard.totalDownloads
      (Dashboard.stats (ui (Dashboard.fetchDashboardStats env now (start st b)).2))
    = foldr (λ r acc, default 0 (FileRow.download_count r) + acc) 0
        (visible env b)
  ∧ Dashboard.loading
      (ui (Dashboard.fetchDashboardStats env now (start st b)).2) = false
  ∧ backend (Dashboard.fetchDashboardStats env now (start st b)).2 = b.
Proof.
  intros H1 H2 H3. rewrite (fetchDashboardStats_run env now st b H1 H2 H3).
  cbn [snd ui backend Dashboard.stats Dashboard.totalFiles
       Dashboard.activeTransfers Dashboard.totalDownloads Dashboard.loading].
  unfold files_count. rewrite filter_all.
  split; [reflexivity|]. split; [reflexivity|]. split.
  - pose proof (filter_length_le (λ r, gte (FileRow.expiry_date r) now)
                  (visible env b)). lia.
  - split; [|split; reflexivity].
    unfold Dashboard.sum_downloads, files_download_counts.
    rewrite foldl_downloads. cbn [Z.add].
    induction (visible env b) as [|r l IH]; cbn; [reflexivity|].
    rewrite <- IH. reflexivity.
Qed.

Lemma fetchDashboardStats_totals_witness :
  Dashboard.totalFiles
    (Dashboard.stats
       (ui (Dashboard.fetchDashboardStats Sample.env 1700000000000
              (start {| Dashboard.stats :=
                          {| Dashboard.totalFiles := 0;
                             Dashboard.activeTransfers := 0;
                             Dashboard.totalDownloads := 0 |};
                        Dashboard.loading := true |} Sample.stored)).2))
  = Z.of_nat (length (visible Sample.env Sample.stored)).
Proof.
  exact (proj1 (fetchDashboardStats_totals Sample.env 1700000000000 _
                  Sample.stored eq_refl eq_refl eq_refl)).
Defined.

(** Rows of somebody else are not among the visible ones. *)
Lemma visible_insert_other env b i r :
  files b !! i = None → owned env r = false →
  visible env {| objects := objects b; files := <[i := r]> (files b) |}
  ≡ₚ visible env b.
Proof.
  intros Hfree Hown. unfold visible. cbn [files].
  transitivity (List.filter (owned env) (r :: (map_to_list (files b)).*2)).
  - apply filter_Permutation'.
    change (r :: (map_to_list (files b)).*2)
      with (((i, r) :: map_to_list (files b)).*2).
    apply fmap_Permutation, map_to_list_insert. exact Hfree.
  - cbn. rewrite Hown. reflexivity.
Qed.

(** X22. Rows of other users never count: adding a row that the signed-in
    user does not own to the table changes nothing in what
    [fetchDashboardStats] shows, whichever queries are answered. *)
Theorem fetchDashboardStats_other_rows env now st b i r :
  files b !! i = None → owned env r = false →
  ui (Dashboard.fetchDashboardStats env now
        (start st {| objects := objects b; files := <[i := r]> (files b) |})).2
  = ui (Dashboard.fetchDashboardStats env now (start st b)).2.
Proof.
  intros Hfree Hown.
  pose proof (visible_insert_other env b i r Hfree Hown) as Hvis.
  assert (Hcount : ∀ g,
    files_count env g {| objects := objects b; files := <[i := r]> (files b) |}
    = files_count env g b).
  { intros g. unfold files_count. f_equal. apply Permutation_length.
    apply filter_Permutation'. exact Hvis. }
  assert (Hsum :
    Dashboard.sum_downloads
      (Some (files_download_counts env
               {| objects := objects b; files := <[i := r]> (files b) |}))
    = Dashboard.sum_downloads (Some (files_download_counts env b))).
  { apply sum_downloads_Permutation. unfold files_download_counts.
    apply fmap_Permutation. exact Hvis. }
  unfold Dashboard.fetchDashboardStats.
  rewrite !(proj2 (proj2 (finally_run _ _ _))). f_equal.
  unfold try_catch, Dashboard.count, Dashboard.select_download_count, request.
  unfold mbind, act_bind, mret, act_ret, setState.
  cbn [start ui backend calls].
  destruct (refuses env (FilesCount None));
    destruct (refuses env (FilesCount (Some now)));
    destruct (refuses env FilesSelectDownloadCount);
    cbn [ui backend calls snd default from_option id];
    rewrite ?Hcount, ?Hsum; reflexivity.
Qed.

(** Bob's file does not show in Alice's statistics. *)
Lemma fetchDashboardStats_other_rows_witness :
  Dashboard.stats
    (ui (Dashboard.fetchDashboardStats Sample.env 1700000000000
           (start {| Dashboard.stats :=
                       {| Dashboard.totalFiles := 0;
                          Dashboard.activeTransfers := 0;
                          Dashboard.totalDownloads := 0 |};
                     Dashboard.loading := true |}
              {| objects := objects Sample.stored;
                 files := <["row-e"%string := Sample.bobs_file]>
                            (files Sample.stored) |})).2)
  = {| Dashboard.totalFiles := 2;
       Dashboard.activeTransfers := 1;
       Dashboard.totalDownloads := 4 |}.
Proof.
  rewrite (fetchDashboardStats_other_rows Sample.env 1700000000000 _
             Sample.stored "row-e" Sample.bobs_file eq_refl eq_refl).
  reflexivity.
Defined.

End StatisticsMore.

(** ** Sorting the dashboard list *)

Section SortFacts.
Import DashboardSort.

Lemma insert_by_Permutation cmp x l : insert_by cmp x l ≡ₚ x :: l.
Proof.
  induction l as [|y l IH]; cbn; [reflexivity|].
  case_bool_decide; [reflexivity|].
  rewrite IH. apply perm_swap.
Qed.

Lemma sort_Permutation cmp l : sort cmp l ≡ₚ l.
Proof.
  induction l as [|x l IH]; cbn; [reflexivity|].
  rewrite insert_by_Permutation. constructor. exact IH.
Qed.

(** Insertion into a list ordered by a number keeps it ordered, when the
    comparator is negative or zero exactly on pairs in that order. *)
Lemma insert_by_sorted cmp (k : FileData.t → Z) x l :
  (∀ a b, cmp a b ≤ 0 ↔ k a ≤ k b) →
  StronglySorted (λ a b, k a ≤ k b) l →
  StronglySorted (λ a b, k a ≤ k b) (insert_by cmp x l).
Proof.
  intros Hcmp. induction 1 as [|y l Hs IH Hy]; cbn.
  - repeat constructor.
  - case_bool_decide as Hxy.
    + apply Hcmp in Hxy. constructor.
      * constructor; assumption.
      * constructor; [exact Hxy|].
        rewrite Forall_forall in Hy |- *. intros z Hz.
        specialize (Hy z Hz). cbn in *. lia.
    + assert (k y ≤ k x).
      { assert (¬ k x ≤ k y) by (intros Hle; apply Hxy, Hcmp; exact Hle). lia. }
      constructor; [exact IH|].
      rewrite Forall_forall in Hy |- *. intros z Hz.
      rewrite insert_by_Permutation in Hz.
      apply elem_of_cons in Hz as [-> | Hz]; [assumption|].
      apply Hy. exact Hz.
Qed.

Lemma sort_sorted cmp (k : FileData.t → Z) l :
  (∀ a b, cmp a b ≤ 0 ↔ k a ≤ k b) →
  StronglySorted (λ a b, k a ≤ k b) (sort cmp l).
Proof.
  intros Hcmp. induction l as [|x l IH]; cbn; [constructor|].
  apply insert_by_sorted; assumption.
Qed.

(** The order of the sorted list for a numeric criterion. *)
Lemma sortedFiles_ordered (localeCompare : string → string → Z)
  (st : DashboardSort.t) (files : list FileData.t) :
  sortField st ≠ SortField.name →
  match sortOrder st with
  | SortOrder.asc =>
      StronglySorted (λ a b, key (sortField st) a ≤ key (sortField st) b)
        (sortedFiles localeCompare st files)
  | SortOrder.desc =>
      StronglySorted (λ a b, key (sortField st) b ≤ key (sortField st) a)
        (sortedFiles localeCompare st files)
  end.
Proof.
  intros Hfield. unfold sortedFiles.
  assert (Hcmp : ∀ a b, comparison localeCompare (sortField st) a b
                        = key (sortField st) a - key (sortField st) b).
  { intros a b. unfold comparison. destruct (sortField st); congruence. }
  destruct (sortOrder st).
  - apply sort_sorted. intros a b. unfold comparator. rewrite Hcmp. lia.
  - assert (Hs : StronglySorted
                   (λ a b, - key (sortField st) a ≤ - key (sortField st) b)
                   (sort (comparator localeCompare (sortField st) SortOrder.desc)
                      files)).
    { apply sort_sorted. intros a b. unfold comparator. rewrite Hcmp. lia. }
    revert Hs. generalize (sort (comparator localeCompare (sortField st)
                                   SortOrder.desc) files).
    induction 1 as [|y l Hs IH Hy]; constructor; [exact IH|].
    eapply Forall_impl; [exact Hy|]. cbn. intros z Hz. lia.
Qed.

(** X23. The list set by the sorting effect of the dashboard holds the same
    entries as before, each as often as before, whatever the criteria and
    the locale. For the criteria size, views, downloads and creation time
    it is in the chosen order of that number: non-decreasing when
    ascending, non-increasing when descending. *)
Theorem sortedFiles_spec (localeCompare : string → string → Z)
  (st : DashboardSort.t) (files : list FileData.t) :
  sortedFiles localeCompare st files ≡ₚ files
  ∧ (sortField st ≠ SortField.name →
     match sortOrder st with
     | SortOrder.asc =>
         StronglySorted (λ a b, key (sortField st) a ≤ key (sortField st) b)
           (sortedFiles localeCompare st files)
     | SortOrder.desc =>
         StronglySorted (λ a b, key (sortField st) b ≤ key (sortField st) a)
           (sortedFiles localeCompare st files)
     end).
Proof.
  split.
  - apply sort_Permutation.
  - apply sortedFiles_ordered.
Qed.

(** Two entries sorted by size, largest first. *)
Lemma sortedFiles_spec_witness :
  StronglySorted (λ a b, FileData.size b ≤ FileData.size a)
    (sortedFiles (λ _ _, 0)
       {| sortField := SortField.size; sortOrder := SortOrder.desc;
          showSortMenu := false |}
       [{| FileData.row := Sample.alices_file; FileData.size := 12 |};
        {| FileData.row := Sample.alices_message; FileData.size := 40 |}]).
Proof.
  apply (proj2 (sortedFiles_spec (λ _ _, 0)
                  {| sortField := SortField.size; sortOrder := SortOrder.desc;
                     showSortMenu := false |}
                  [{| FileData.row := Sample.alices_file; FileData.size := 12 |};
                   {| FileData.row := Sample.alices_message;
                      FileData.size := 40 |}])).
  discriminate.
Defined.

(** X24. Choosing a numeric criterion in the sort menu closes the menu and
    sorts by it: largest first when the criterion is new or the list was
    ascending, smallest first when the same criterion was already sorted
    largest first. *)
Theorem handleSort_order (localeCompare : string → string → Z)
  (field : SortField.t) (st : DashboardSort.t) (files : list FileData.t) :
  field ≠ SortField.name →
  sortField (handleSort field st) = field
  ∧ showSortMenu (handleSort field st) = false
  ∧ (field ≠ sortField st ∨ sortOrder st = SortOrder.asc →
     StronglySorted (λ a b, key field b ≤ key field a)
       (sortedFiles localeCompare (handleSort field st) files))
  ∧ (field = sortField st → sortOrder st = SortOrder.desc →
     StronglySorted (λ a b, key field a ≤ key field b)
       (sortedFiles localeCompare (handleSort field st) files)).
Proof.
  intros Hfield. unfold handleSort. case_bool_decide as Hsame.
  - subst field. destruct (sortOrder st) eqn:Ho.
    + pose proof (sortedFiles_ordered localeCompare
                    {| sortField := sortField st; sortOrder := SortOrder.desc;
                       showSortMenu := false |} files Hfield) as Hord.
      cbn [sortField sortOrder showSortMenu] in *.
      split; [reflexivity|]. split; [reflexivity|]. split.
      * intros _. exact Hord.
      * intros _ Hdesc. discriminate Hdesc.
    + pose proof (sortedFiles_ordered localeCompare
                    {| sortField := sortField st; sortOrder := SortOrder.asc;
                       showSortMenu := false |} files Hfield) as Hord.
      cbn [sortField sortOrder showSortMenu] in *.
      split; [reflexivity|]. split; [reflexivity|]. split.
      * intros [Hne | Hasc]; [congruence | discriminate Hasc].
      * intros _ _. exact Hord.
  - pose proof (sortedFiles_ordered localeCompare
                  {| sortField := field; sortOrder := SortOrder.desc;
                     showSortMenu := false |} files Hfield) as Hord.
    cbn [sortField sortOrder showSortMenu] in *.
    split; [reflexivity|]. split; [reflexivity|]. split.
    + intros _. exact Hord.
    + intros Heq. congruence.
Qed.

Lemma handleSort_order_witness :
  sortField (handleSort SortField.size
               {| sortField := SortField.created_at;
                  sortOrder := SortOrder.desc; showSortMenu := true |})
  = SortField.size.
Proof.
  exact (proj1 (handleSort_order (λ _ _, 0) SortField.size
                  {| sortField := SortField.created_at;
                     sortOrder := SortOrder.desc; showSortMenu := true |}
                  [] ltac:(discriminate))).
Defined.

End SortFacts.

(** ** What a submission can change *)

Section SubmissionEffects.
Import FileUploadState FileUpload.

(** A submission that ends with an error in the form has written no row. *)
Lemma handleSubmit_failed_files env st b r s' e :
  handleSubmit env st (start st b) = (r, s') → error (ui s') = Some e →
  files (backend s') = files b.
Proof.
  unfold handleSubmit.
  destruct (nothing_to_send (file st) (message st)) eqn:Hv.
  { intros [= <- <-] _. reflexivity. }
  unfold try_catch. rewrite submit_run.
  destruct (user env) as [u|] eqn:Hu; [|intros [= <- <-] _; reflexivity].
  unfold submit_as.
  unfold mbind, act_bind, mret, act_ret, eval, throw, setState,
    upload, insert, remove, request.
  cbn [start ui backend calls].
  destruct (file st) as [f|] eqn:Hf.
  - cbn zeta.
    pose proof (filePath_of_truthy env u f) as Hp.
    set (p := filePath_of env u f) in *.
    destruct (refuses env (StorageUpload p f));
      [cbn; intros [= <- <-] _; reflexivity|].
    cbn [error_of ui backend calls].
    destruct (storage_upload env p f b) as [e0|b1] eqn:Hup;
      [cbn; intros [= <- <-] _; reflexivity|].
    apply storage_upload_inv in Hup as [_ ->].
    cbn [error_of ui backend calls].
    destruct (expiry_date env st) as [e0|expiry];
      [cbn; intros [= <- <-] _; reflexivity|].
    unfold mret, act_ret. cbn [error_of ui backend calls].
    set (nf := new_file st u p expiry).
    destruct (refuses env (FilesInsert nf)).
    { cbn [error_of ui backend calls]. rewrite Hp.
      destruct (refuses env (StorageRemove [p]));
        cbn; intros [= <- <-] _; reflexivity. }
    cbn [error_of ui backend calls].
    destruct (files_insert env nf (uploaded p f b)) as [e0|b2] eqn:Hins.
    { cbn [error_of ui backend calls]. rewrite Hp.
      destruct (refuses env (StorageRemove [p]));
        cbn; intros [= <- <-] _; reflexivity. }
    cbn [error_of ui backend calls]. intros [= <- <-] Herr.
    discriminate Herr.
  - destruct (expiry_date env st) as [e0|expiry];
      [cbn; intros [= <- <-] _; reflexivity|].
    unfold mret, act_ret. cbn [error_of ui backend calls].
    set (nf := new_file st u EmptyString expiry).
    destruct (refuses env (FilesInsert nf));
      [cbn; intros [= <- <-] _; reflexivity|].
    cbn [error_of ui backend calls].
    destruct (files_insert env nf b) as [e0|b2] eqn:Hins;
      [cbn; intros [= <- <-] _; reflexivity|].
    cbn [error_of ui backend calls]. intros [= <- <-] Herr.
    discriminate Herr.
Qed.

(** X25. A submission never deletes or changes a row: afterwards the table
    is the table of before when the form shows an error, and otherwise the
    table of before with one more row, stored under an identifier that was
    free. *)
Theorem handleSubmit_rows env st b :
  (is_Some (error (ui (submitted env st b))) →
   files (backend (submitted env st b)) = files b)
  ∧ (error (ui (submitted env st b)) = None →
     files b !! uuid env = None
     ∧ ∃ row, files (backend (submitted env st b))
              = <[uuid env := row]> (files b))
  ∧ (∀ i r, files b !! i = Some r →
       files (backend (submitted env st b)) !! i = Some r).
Proof.
  unfold submitted.
  destruct (handleSubmit env st (start st b)) as [r s'] eqn:Hrun. cbn [snd].
  assert (Hfail : is_Some (error (ui s')) → files (backend s') = files b).
  { intros [e He]. apply (handleSubmit_failed_files env st b r s' e Hrun He). }
  assert (Hok : error (ui s') = None →
                files b !! uuid env = None
                ∧ ∃ row, files (backend s') = <[uuid env := row]> (files b)).
  { intros Hnone.
    destruct (handleSubmit_success_inv env st b r s' Hrun Hnone)
      as (u & x & rc & _ & _ & _ & _ & Hfresh & Hfiles & _).
    split; [exact Hfresh | eauto]. }
  split; [exact Hfail|]. split; [exact Hok|].
  intros i row Hrow. destruct (error (ui s')) as [e|] eqn:He.
  - rewrite Hfail by eauto. exact Hrow.
  - destruct (Hok eq_refl) as (Hfresh & row' & ->).
    rewrite lookup_insert_ne; [exact Hrow | congruence].
Qed.

(** Alice sends a message to a table that holds three rows. *)
Lemma handleSubmit_rows_witness :
  files (backend (submitted Sample.env (Sample.form None "hello" 7)
                    Sample.stored)) !! "row-b"%string
  = Some Sample.bobs_message.
Proof.
  exact (proj2 (proj2 (handleSubmit_rows Sample.env (Sample.form None "hello" 7)
                         Sample.stored))
           "row-b"%string Sample.bobs_message eq_refl).
Defined.

(** X26. The name of the row created by a successful submission is the
    name of the file; it is [Message Only] when there is no file, and also
    when the file has an empty name. *)
Theorem handleSubmit_name env st b :
  error (ui (submitted env st b)) = None →
  ∃ row,
    files (backend (submitted env st b)) !! uuid env = Some row
    ∧ (file st = None → FileRow.name row = "Message Only"%string)
    ∧ (∀ f, file st = Some f → File.name f ≠ EmptyString →
         FileRow.name row = File.name f)
    ∧ (∀ f, file st = Some f → File.name f = EmptyString →
         FileRow.name row = "Message Only"%string
         ∧ FileRow.type row = file_and_message).
Proof.
  intros Hok.
  destruct (submitted_row env st b Hok)
    as (u & expiry & recipient & _ & _ & _ & Hrow).
  eexists. split; [exact Hrow|].
  cbn [row_of FileRow.name FileRow.type new_file NewFile.name NewFile.type].
  split; [|split].
  - intros Hf. rewrite Hf. reflexivity.
  - intros f Hf Hne. rewrite Hf. destruct (File.name f); [congruence | reflexivity].
  - intros f Hf Hempty. rewrite Hf, Hempty. split; [reflexivity|].
    rewrite bool_decide_eq_true_2 by eauto. reflexivity.
Qed.

Lemma handleSubmit_name_witness :
  ∃ row,
    files (backend (submitted Sample.env
                      (Sample.form (Some Sample.notes) "see attached" 7)
                      Sample.empty)) !! uuid Sample.env = Some row
    ∧ FileRow.name row = "notes.txt"%string.
Proof.
  destruct (handleSubmit_name Sample.env
              (Sample.form (Some Sample.notes) "see attached" 7)
              Sample.empty eq_refl) as (row & Hrow & _ & Hname & _).
  exists row. split; [exact Hrow|].
  apply (Hname Sample.notes eq_refl). discriminate.
Defined.

(** X27. In the styled form a chosen or dropped file of at most
    [50 * 1024 * 1024] bytes is taken: it replaces the file of the form,
    the error is cleared and the other fields are kept; a submission from
    that state passes the validation whatever the message is. *)
Theorem file_within_limit_accepted (formatSize : Z → string) (f : File.t)
  (u : StyledUpload.t) (b : Backend) :
  File.size f ≤ 50 * 1024 * 1024 →
  StyledUpload.handleFileChange formatSize (Some f) (start u b)
  = (inr tt, start (StyledUpload.accept f u) b)
  ∧ StyledUpload.handleDrop formatSize (Some f) (start u b)
    = (inr tt, start (StyledUpload.setIsDragging false
                        (StyledUpload.accept f u)) b)
  ∧ file (StyledUpload.state (StyledUpload.accept f u)) = Some f
  ∧ error (StyledUpload.state (StyledUpload.accept f u)) = None
  ∧ message (StyledUpload.state (StyledUpload.accept f u))
    = message (StyledUpload.state u)
  ∧ nothing_to_send (file (StyledUpload.state (StyledUpload.accept f u)))
      (message (StyledUpload.state (StyledUpload.accept f u))) = false.
Proof.
  intros Hsize.
  assert (Herr : StyledUpload.size_error formatSize f = None).
  { unfold StyledUpload.size_error, StyledUpload.validateFile,
      StyledUpload.MAX_FILE_SIZE.
    rewrite bool_decide_eq_false_2 by lia. reflexivity. }
  unfold StyledUpload.handleFileChange, StyledUpload.handleDrop.
  rewrite Herr. repeat split.
Qed.

Lemma file_within_limit_accepted_witness :
  StyledUpload.handleFileChange (λ _, "12 B"%string) (Some Sample.notes)
    (start {| StyledUpload.state := Sample.blank;
              StyledUpload.isDragging := false |} Sample.empty)
  = (inr tt,
     start (StyledUpload.accept Sample.notes
              {| StyledUpload.state := Sample.blank;
                 StyledUpload.isDragging := false |}) Sample.empty).
Proof.
  exact (proj1 (file_within_limit_accepted (λ _, "12 B"%string) Sample.notes
                  {| StyledUpload.state := Sample.blank;
                     StyledUpload.isDragging := false |} Sample.empty
                  ltac:(discriminate))).
Defined.

End SubmissionEffects.
